(** * DSL - easy Display Setup for Laptops

    A shallow embedding of [dsl.py]: the configuration loader, the
    situation detection driven by the configuration, the construction of
    the [ScreenSetup] from the command line, the backlight routine and the
    top-level error handling, together with the properties the
    specification states about them.

    Conventions of the model.
    - A Python [str] (and the [bytes] a subprocess prints) is a [string]
      of 8-bit characters, read as code points below 256.
    - A [dict] from option names to token lists is a [gmap string (list string)].
    - An exception is a class together with the text [str(e)] gives.
    - The modules [screen] and [gui], [shlex], [float], [argparse], the
      file system and the subprocesses are collaborators of [dsl.py]: the
      pure library functions are the fields of [PyLib], what the machine
      answers is a [World], what argparse makes of the command line is a
      [parse_result]. *)

From stdpp Require Import base gmap strings list pretty.
From Stdlib Require Import Strings.String Strings.Ascii ZArith Floats.SpecFloat.

Local Open Scope string_scope.

(** ** Python strings *)

Module PyStr.

(** [str.isspace] on one character, for code points below 256: the
    ASCII controls TAB..CR and FS..US, the blank, NEL and NBSP. *)
Definition isspace (c : ascii) : bool :=
  let n := N_of_ascii c in
  ((9 <=? n) && (n <=? 13) || (28 <=? n) && (n <=? 32)
   || (n =? 133) || (n =? 160))%N.

(** [bytes.isspace]: the six ASCII blanks only. *)
Definition isspace_bytes (c : ascii) : bool :=
  let n := N_of_ascii c in
  ((9 <=? n) && (n <=? 13) || (n =? 32))%N.

Fixpoint lstrip_with (sp : ascii → bool) (s : string) : string :=
  match s with
  | String c s' => if sp c then lstrip_with sp s' else s
  | EmptyString => EmptyString
  end.

Definition rstrip_with (sp : ascii → bool) (s : string) : string :=
  String.rev (lstrip_with sp (String.rev s)).

(** [s.strip()] for a [str] and for a [bytes] value. *)
Definition strip (s : string) : string :=
  rstrip_with isspace (lstrip_with isspace s).
Definition strip_bytes (s : string) : string :=
  rstrip_with isspace_bytes (lstrip_with isspace_bytes s).

(** [s.startswith(p)] *)
Definition startswith (p s : string) : bool := String.prefix p s.

(** [s.index(c)] for a one-character needle: the position of its first
    occurrence, [None] where Python raises [ValueError]. *)
Fixpoint index (c : ascii) (s : string) : option nat :=
  match s with
  | EmptyString => None
  | String d s' => if decide (d = c) then Some 0 else S <$> index c s'
  end.

(** [s[:pos]] and [s[pos:]] for [0 <= pos]. *)
Fixpoint take (pos : nat) (s : string) : string :=
  match pos, s with
  | S p, String c s' => String c (take p s')
  | _, _ => EmptyString
  end.
Fixpoint drop (pos : nat) (s : string) : string :=
  match pos, s with
  | S p, String _ s' => drop p s'
  | _, _ => s
  end.

(** [str.lower] on the ASCII letters. *)
Definition lower_char (c : ascii) : ascii :=
  let n := N_of_ascii c in
  if ((65 <=? n) && (n <=? 90))%N then ascii_of_N (n + 32) else c.
Fixpoint lower (s : string) : string :=
  match s with
  | EmptyString => EmptyString
  | String c s' => String (lower_char c) (lower s')
  end.

(** Membership of a character, used to state what [index] finds. *)
Fixpoint mem (c : ascii) (s : string) : bool :=
  match s with
  | EmptyString => false
  | String d s' => if decide (d = c) then true else mem c s'
  end.

End PyStr.

(** ** Exceptions and results *)

Inductive exn_class : Type :=
  | Exception_            (* a plain [Exception(...)] *)
  | IndexError
  | AssertionError
  | TypeError
  | ValueError
  | FileNotFoundError
  | CalledProcessError
  | OtherError (name : string).

Record exn : Type := mkExn { exn_cls : exn_class; exn_str : string }.

Global Instance exn_class_eq_dec : EqDecision exn_class.
Proof. solve_decision. Defined.
Global Instance exn_eq_dec : EqDecision exn.
Proof. solve_decision. Defined.

(** What a call gives back: a value, or a raised exception. *)
Inductive res (A : Type) : Type :=
  | Ok (a : A)
  | Raise (e : exn).
Arguments Ok {A} a.
Arguments Raise {A} e.

(** [l[0]] *)
Definition first_item {A} (l : list A) : res A :=
  match l with
  | x :: _ => Ok x
  | [] => Raise (mkExn IndexError "list index out of range")
  end.

(** The pure library functions [dsl.py] calls. *)
Class PyLib : Type := {
  (** [shlex.split(s)]; [None] where it raises [ValueError]. *)
  shlex_split : string → option (list string);
  (** [float(b)] on [bytes]; [inr msg] where it raises [ValueError(msg)]. *)
  float : string → spec_float + string;
}.

(** ** Config Loader *)

Abbreviation Config := (gmap string (list string)).

Definition parse_error (linenr : nat) : exn :=
  mkExn Exception_
    ("Invalid config, line " ++ pretty linenr
     ++ ": Error parsing line (may be a quoting issue).").

Section ConfigLoader.
Context `{PyLib}.

(** The body of [for line in f], with the counter and the dictionary
    threaded through. *)
Fixpoint read_lines (f : list string) (linenr : nat) (result : Config)
  : res Config :=
  match f with
  | [] => Ok result
  | line :: f' =>
      let linenr := S linenr in
      let line := PyStr.strip line in
      if (String.length line =? 0)%nat || PyStr.startswith "#" line
      then read_lines f' linenr result
      else
        match PyStr.index "=" line with
        | None => Raise (parse_error linenr)
        | Some pos =>
            let curKey := PyStr.strip (PyStr.take pos line) in
            match shlex_split (PyStr.drop (pos + 1) line) with
            | None => Raise (parse_error linenr)
            | Some tokens => read_lines f' linenr (<[curKey := tokens]> result)
            end
        end
  end.

(** [fs filename] is [None] when [os.path.exists] is false, and the
    lines the file iterator yields otherwise, each still carrying its
    line end; a file that exists is taken to be readable. *)
Definition loadConfigFile (fs : string → option (list string))
    (filename : string) : res Config :=
  let result : Config := ∅ in
  match fs filename with
  | None => Ok result
  | Some f => read_lines f 0 result
  end.

End ConfigLoader.

(** ** The data of module [screen] *)

(** A display mode, width by height. *)
Record Resolution : Type := mkResolution { width : nat; height : nat }.

Global Instance Resolution_eq_dec : EqDecision Resolution.
Proof. solve_decision. Defined.

Inductive RelativeScreenPosition : Type :=
  | LEFT | RIGHT | ABOVE | BELOW | MIRROR.

Global Instance RelativeScreenPosition_eq_dec : EqDecision RelativeScreenPosition.
Proof. solve_decision. Defined.

(** [RelativeScreenPosition.__members__.items()], in declaration order. *)
Definition RelativeScreenPosition_members : list (string * RelativeScreenPosition) :=
  [("LEFT", LEFT); ("RIGHT", RIGHT); ("ABOVE", ABOVE); ("BELOW", BELOW);
   ("MIRROR", MIRROR)].

(** What [dsl.py] reads of a [ScreenSituation], a class of [screen.py]:
    the lists its three methods return, each in the order reported.
    [externalResolutions] is [None] when no external screen is connected. *)
Record ScreenSituation : Type := mkSituation {
  internalResolutions : list Resolution;
  externalResolutions : option (list Resolution);
  commonResolutions : list Resolution;
}.

(** Modelled from the spec: [ScreenSituation.commonResolutions] is defined
    in [screen.py], which is not among the sources. The specification
    describes what it returns as the resolutions common to the internal
    and the external connector; the order is left to the method. *)
Definition common_is_shared (s : ScreenSituation) : Prop :=
  ∀ r, r ∈ commonResolutions s ↔
       r ∈ internalResolutions s
       ∧ ∃ extRes, externalResolutions s = Some extRes ∧ r ∈ extRes.

(** [ScreenSetup(intResolution, extResolution, relPosition)]; a position
    left out of the call is [None]. *)
Record ScreenSetup : Type := mkSetup {
  intResolution : option Resolution;
  extResolution : option Resolution;
  relPosition : option RelativeScreenPosition;
}.

(** A frontend of module [gui]: its name, and what [setup(situation)]
    answers ([Ok None] when the user cancels). *)
Record Frontend : Type := mkFrontend {
  fe_name : string;
  fe_setup : ScreenSituation → res (option ScreenSetup);
}.

(** ** The machine a run meets *)

Record World : Type := mkWorld {
  (** [os.getenv('HOME')] *)
  w_home : option string;
  (** the file system, as [loadConfigFile] reads it *)
  w_fs : string → option (list string);
  (** [gui.getFrontend(name)] *)
  w_getFrontend : option string → res Frontend;
  (** [screen.ScreenSituation(internalConnectors, externalConnectors)] *)
  w_ScreenSituation : list string → option (list string) → res ScreenSituation;
  (** [situation.forXrandr(setup)] *)
  w_forXrandr : ScreenSituation → ScreenSetup → res (list string);
  (** [subprocess.check_call(args)] and [subprocess.check_output(args)] *)
  w_check_call : list string → res unit;
  w_check_output : list string → res string;
}.

(** The parsed command line. *)
Record CmdArgs : Type := mkArgs {
  arg_frontend : option string;
  rel_position : option string;
  external_only : bool;
  internal_only : bool;
}.

(** ** Effects: the global [frontend], what the run did, and how it ends *)

Inductive event : Type :=
  | EvPrint (text : string)
  | EvPrintCall (label : string) (call : list string)
  | EvFrontendSetup (fe : string)
  | EvFrontendError (fe : string) (msg : string)
  | EvCheckCall (args : list string)
  | EvCheckOutput (args : list string).

Global Instance event_eq_dec : EqDecision event.
Proof. solve_decision. Defined.

Record state : Type := mkState {
  frontend : Frontend;
  trace : list event;
}.

(** A computation returns, raises an [Exception], or raises [SystemExit]
    (which [except Exception] does not catch). *)
Inductive outcome (A : Type) : Type :=
  | Val (a : A)
  | Exc (e : exn)
  | SysExit (code : Z).
Arguments Val {A} a.
Arguments Exc {A} e.
Arguments SysExit {A} code.

Definition M (A : Type) : Type := state → state * outcome A.

Global Instance M_ret : MRet M := λ A a st, (st, Val a).
Global Instance M_bind : MBind M := λ A B f m st,
  match m st with
  | (st', Val a) => f a st'
  | (st', Exc e) => (st', Exc e)
  | (st', SysExit c) => (st', SysExit c)
  end.

Definition raise {A} (e : exn) : M A := λ st, (st, Exc e).
Definition sys_exit {A} (code : Z) : M A := λ st, (st, SysExit code).
Definition emit (ev : event) : M unit :=
  λ st, (mkState (frontend st) (trace st ++ [ev]), Val tt).
Definition get_frontend : M Frontend := λ st, (st, Val (frontend st)).
Definition set_frontend (fe : Frontend) : M unit :=
  λ st, (mkState fe (trace st), Val tt).
Definition lift {A} (r : res A) : M A :=
  match r with
  | Ok a => mret a
  | Raise e => raise e
  end.

(** [try: body / except Exception as e: handler e] *)
Definition try_except {A} (body : M A) (handler : exn → M A) : M A :=
  λ st,
    match body st with
    | (st', Exc e) => handler e st'
    | r => r
    end.

(** The status the interpreter leaves with. *)
Definition exit_status {A} (o : outcome A) : Z :=
  match o with
  | Val _ => 0
  | SysExit code => code
  | Exc _ => 1
  end.

Global Instance res_ret : MRet res := λ A a, Ok a.
Global Instance res_bind : MBind res := λ A B f r,
  match r with
  | Ok a => f a
  | Raise e => Raise e
  end.

(** ** Situation detection from the configuration *)

Definition commonInternalConnectorPrefixes : list string := ["LVDS"; "eDP"].
Definition commonInternalConnectorSuffices : list string := [""; "0"; "1"; "-0"; "-1"].

(** The names the generator yields, in the order it yields them. *)
Definition commonInternalConnectorNames : list string :=
  prefix ← commonInternalConnectorPrefixes;
  suffix ← commonInternalConnectorSuffices;
  [prefix ++ suffix].

Definition config_error : exn :=
  mkExn Exception_ "You must specify exactly one internal connector.".

Section Program.
Context `{PyLib}.
Variable w : World.

Definition situationByConfig (config : Config) : res ScreenSituation :=
  internalConnectors ←
    match config !! "internalConnector" with
    | Some names =>
        if decide (List.length names ≠ 1) then Raise config_error else Ok names
    | None => Ok commonInternalConnectorNames
    end;
  w_ScreenSituation w internalConnectors (config !! "externalConnectors").

(** ** Subprocesses and printing *)

Definition print (text : string) : M unit := emit (EvPrint text).
Definition check_call (args : list string) : M unit :=
  emit (EvCheckCall args);; lift (w_check_call w args).
Definition check_output (args : list string) : M string :=
  emit (EvCheckOutput args);; lift (w_check_output w args).

(** [float(b)] as a computation. *)
Definition float_of (b : string) : M spec_float :=
  match float b with
  | inl x => mret x
  | inr msg => raise (mkExn ValueError msg)
  end.

(** [x == 0] on a float: both zeros, nothing else. *)
Definition is_zero (x : spec_float) : bool :=
  match x with
  | S754_zero _ => true
  | _ => false
  end.

(** ** Make sure the backlight is turned on *)

Definition turnOnBacklight : M unit :=
  try_except
    (out ← check_output ["xbacklight"; "-get"];
     backlight ← float_of (PyStr.strip_bytes out);
     if is_zero backlight
     then check_call ["xbacklight"; "-set"; "100"]
     else mret tt)
    (λ e,
       match exn_cls e with
       | FileNotFoundError =>
           print "xbacklight has not been found, unable to turn your laptop backlight on."
       | CalledProcessError =>
           print "xbacklight returned an error while attempting to turn your laptop backlight on."
       | _ => raise e
       end).

(** ** Construct the ScreenSetup (lines 115-138) *)

Definition relPosFilter : string → string := PyStr.lower.

Definition construct_setup (cmdArgs : CmdArgs) (situation : ScreenSituation)
  : M ScreenSetup :=
  match internal_only cmdArgs, externalResolutions situation with
  | false, Some extRes =>
      (* there is an external screen connected that we may want to use *)
      if external_only cmdArgs then
        e ← lift (first_item extRes);
        mret (mkSetup None (Some e) None)
      else
        match rel_position cmdArgs with
        | Some pos =>
            let relPos :=
              filter (λ relPosItem, relPosFilter relPosItem.1 = pos)
                     RelativeScreenPosition_members in
            if decide (List.length relPos ≠ 1)
            then raise (mkExn AssertionError "CLI argument is ambigue")
            else
              relPosItem ← lift (first_item relPos);
              let relPos := relPosItem.2 in
              if decide (relPos = MIRROR) then
                r ← lift (first_item (commonResolutions situation));
                mret (mkSetup (Some r) (Some r) (Some relPos))
              else
                i ← lift (first_item (internalResolutions situation));
                e ← lift (first_item extRes);
                mret (mkSetup (Some i) (Some e) (Some relPos))
        | None =>
            (* ask the user *)
            fe ← get_frontend;
            emit (EvFrontendSetup (fe_name fe));;
            setup ← lift (fe_setup fe situation);
            match setup with
            | None => sys_exit 1 (* the user canceled *)
            | Some setup => mret setup
            end
        end
  | _, _ =>
      (* use first resolution of internal connector *)
      i ← lift (first_item (internalResolutions situation));
      mret (mkSetup (Some i) None None)
  end.

(** ** The top level *)

(** Lines 105-138, the command line being parsed into [cmdArgs]:
    frontend, configuration, situation, setup. *)
Definition prepare (cmdArgs : CmdArgs) : M (ScreenSituation * ScreenSetup) :=
  fe ← lift (w_getFrontend w (arg_frontend cmdArgs));
  set_frontend fe;;
  home ← match w_home w with
         | Some home => mret home
         | None =>
             raise (mkExn TypeError
               "unsupported operand type(s) for +: 'NoneType' and 'str'")
         end;
  config ← lift (loadConfigFile (w_fs w) (home ++ "/.dsl.conf"));
  situation ← lift (situationByConfig config);
  setup ← construct_setup cmdArgs situation;
  mret (situation, setup).

(** Lines 140-147: call xrandr, then look after the backlight. *)
Definition apply_setup (situation : ScreenSituation) (setup : ScreenSetup)
  : M unit :=
  xrandrCall ← lift (w_forXrandr w situation setup);
  emit (EvPrintCall "Call that will be made:" xrandrCall);;
  check_call xrandrCall;;
  match extResolution setup with
  | None => turnOnBacklight
  | Some _ => mret tt
  end.

Definition main_body (cmdArgs : CmdArgs) : M unit :=
  prepared ← prepare cmdArgs;
  apply_setup prepared.1 prepared.2.

(** [except Exception as e: frontend.error(str(e)); raise] *)
Definition report (e : exn) : M unit :=
  fe ← get_frontend;
  emit (EvFrontendError (fe_name fe) (exn_str e));;
  raise e.

Definition main (cmdArgs : CmdArgs) : M unit :=
  try_except (main_body cmdArgs) report.

(** A run of the script on a command line argparse has accepted:
    [frontend] starts as the fallback [cli] frontend (line 22), nothing
    has happened yet. [script] below puts [parse_args] in front. *)
Definition run (cli : Frontend) (cmdArgs : CmdArgs) : state * outcome unit :=
  main cmdArgs (mkState cli []).

End Program.

(** ** The lines of a configuration file *)

Section ConfigLines.
Context `{PyLib}.

(** A line the loader passes over: empty once trimmed, or a comment. *)
Definition is_skipped (line : string) : bool :=
  let line := PyStr.strip line in
  (String.length line =? 0)%nat || PyStr.startswith "#" line.

(** What the [try] block stores for a line, [None] where it raises. *)
Definition entry_of (line : string) : option (string * list string) :=
  let line := PyStr.strip line in
  pos ← PyStr.index "=" line;
  tokens ← shlex_split (PyStr.drop (pos + 1) line);
  Some (PyStr.strip (PyStr.take pos line), tokens).

(** The specification's words for a well-formed line: the trimmed line
    has a first ['=']; the key is the trimmed portion before it, the
    value the token split of the portion after it. *)
Definition is_entry (line key : string) (tokens : list string) : Prop :=
  ∃ before after,
    PyStr.strip line = before ++ "=" ++ after
    ∧ PyStr.mem "=" before = false
    ∧ key = PyStr.strip before
    ∧ shlex_split after = Some tokens.

(** A line with no ['='] at all. *)
Definition lacks_equals (line : string) : Prop :=
  PyStr.mem "=" (PyStr.strip line) = false.

(** Blank, comment, or well-formed. *)
Definition line_ok (line : string) : Prop :=
  is_skipped line = true ∨ ∃ key tokens, is_entry line key tokens.

(** The tokens of the last line of [f] that stores under [key]. *)
Fixpoint last_binding (f : list string) (key : string) : option (list string) :=
  match f with
  | [] => None
  | line :: f' =>
      match last_binding f' key with
      | Some tokens => Some tokens
      | None =>
          if is_skipped line then None
          else
            match entry_of line with
            | Some (k, tokens) => if decide (k = key) then Some tokens else None
            | None => None
            end
      end
  end.

End ConfigLines.

(** ** A sample machine *)

Module Sample.

Definition nl : string := String (ascii_of_nat 10) EmptyString.

(** A stand-in for the library: tokens are split at blanks, which is
    what [shlex.split] does on text without quotes or backslashes, and
    [float] knows the two readings [xbacklight -get] is given below. *)
Definition lib : PyLib := {|
  shlex_split s := Some (String.words s);
  float b :=
    if decide (b = "0.000000") then inl (S754_zero false)
    else if decide (b = "100.000000") then inl (S754_finite false 25 2)
    else inr ("could not convert string to float: b'" ++ b ++ "'")
|}.

Definition r1920 : Resolution := mkResolution 1920 1080.
Definition r1366 : Resolution := mkResolution 1366 768.
Definition r1280 : Resolution := mkResolution 1280 1024.

Definition laptop_only : ScreenSituation :=
  mkSituation [r1920; r1366] None [].
Definition docked : ScreenSituation :=
  mkSituation [r1920; r1366] (Some [r1280; r1920]) [r1920].
Definition disjoint : ScreenSituation :=
  mkSituation [r1366] (Some [r1280]) [].

Definition cli : Frontend := mkFrontend "cli" (λ _, Ok None).

Definition dsl_conf : list string :=
  ["# display setup" ++ nl; nl; " internalConnector = eDP1 " ++ nl;
   "externalConnectors = HDMI1  VGA1" ++ nl].

(** A file whose third line has no ['='], and one that stores [a] twice. *)
Definition bad_conf : list string :=
  ["# display setup" ++ nl; nl; "internalConnector eDP1" ++ nl].
Definition dup_conf : list string :=
  ["a = 1" ++ nl; "a = 2" ++ nl; "b = 3" ++ nl].

Definition conf_path : string := "/home/user/.dsl.conf".

Definition fs (path : string) : option (list string) :=
  if decide (path = conf_path) then Some dsl_conf
  else if decide (path = "/etc/bad.conf") then Some bad_conf
  else if decide (path = "/etc/dup.conf") then Some dup_conf
  else if decide (path = "/etc/two.conf") then Some ["a"; "b"]
  else None.

(** A machine with the given situation, backlight reading and answer
    of [xbacklight -set]. *)
Definition machine (situation : ScreenSituation) (get : res string)
    (set : res unit) : World := {|
  w_home := Some "/home/user";
  w_fs := fs;
  w_getFrontend _ := Ok cli;
  w_ScreenSituation _ _ := Ok situation;
  w_forXrandr _ _ := Ok ["xrandr"];
  w_check_call args := if decide (args = ["xrandr"]) then Ok tt else set;
  w_check_output _ := get;
|}.

Definition args_interactive : CmdArgs := mkArgs None None false false.
Definition args_mirror : CmdArgs := mkArgs None (Some "mirror") false false.
Definition args_external : CmdArgs := mkArgs None None true false.
Definition args_internal : CmdArgs := mkArgs None (Some "left") true true.

Definition start : state := mkState cli [].

End Sample.

(** ** Computations that leave the frontend alone *)

(** [m] keeps the global [frontend], and leaves through [SystemExit] with
    status 1 only. *)
Definition tame {A} (m : M A) : Prop :=
  ∀ st st' o, m st = (st', o) →
    frontend st' = frontend st ∧ ∀ code, o = SysExit code → code = 1%Z.

(** ** What the brightness utility can answer *)

Section BacklightCases.
Context `{PyLib}.
Variable w : World.

(** The brightness read back is zero. *)
Definition reads_zero : Prop :=
  ∃ out x, w_check_output w ["xbacklight"; "-get"] = Ok out
    ∧ float (PyStr.strip_bytes out) = inl x
    ∧ is_zero x = true.

(** A call of the utility raised [e]: the query, or the setting that
    follows a zero reading. *)
Definition utility_raises (e : exn) : Prop :=
  w_check_output w ["xbacklight"; "-get"] = Raise e
  ∨ (reads_zero ∧ w_check_call w ["xbacklight"; "-set"; "100"] = Raise e).

(** The query worked and [float] rejected its output with [msg]. *)
Definition reading_unparsed (msg : string) : Prop :=
  ∃ out, w_check_output w ["xbacklight"; "-get"] = Ok out
    ∧ float (PyStr.strip_bytes out) = inr msg.

End BacklightCases.

(** The state once [xrandr] has been announced and called. *)
Definition applied (st : state) (xrandrCall : list string) : state :=
  mkState (frontend st)
    (trace st ++ [EvPrintCall "Call that will be made:" xrandrCall;
                  EvCheckCall xrandrCall]).

(** Unfolds the operations of [M] down to pairs of state and outcome. *)
Ltac run_M :=
  unfold try_except, check_output, check_call, float_of, print, emit, lift,
    raise, sys_exit, get_frontend, set_frontend, mbind, M_bind, mret, M_ret
    in *;
  simpl in *.

(** Splits a [Forall] over an explicit list into one goal per element. *)
Ltac each_line :=
  repeat first [apply Forall_cons_2 | apply Forall_nil_2].

(** ** What a computation may add to the trace *)

(** [m] only appends to the trace, and every event it appends satisfies
    [P]. *)
Definition emits {A} (P : event → Prop) (m : M A) : Prop :=
  ∀ st st' o, m st = (st', o) →
    ∃ more, trace st' = (trace st ++ more)%list ∧ Forall P more.

(** The question put to the frontend, and a report on its error channel. *)
Definition is_question (ev : event) : Prop := ∃ fe, ev = EvFrontendSetup fe.
Definition is_error_report (ev : event) : Prop :=
  ∃ fe msg, ev = EvFrontendError fe msg.

(** The [choices] argparse allows for [--relative-position] (line 95). *)
Definition rel_position_choices : list string :=
  map relPosFilter (map fst RelativeScreenPosition_members).

(** No flag of the command line decides the setup: the user is asked. *)
Definition asks_user (cmdArgs : CmdArgs) (situation : ScreenSituation) : Prop :=
  internal_only cmdArgs = false
  ∧ is_Some (externalResolutions situation)
  ∧ external_only cmdArgs = false
  ∧ rel_position cmdArgs = None.

(** A second sample library, whose [shlex_split] rejects a value with an
    odd number of double quotes, as [shlex.split] does (no closing
    quotation). *)
Module SampleQuoting.

Definition dq : ascii := ascii_of_nat 34.

Fixpoint count_quotes (s : string) : nat :=
  match s with
  | EmptyString => 0
  | String c s' => (if decide (c = dq) then 1 else 0) + count_quotes s'
  end.

Definition lib : PyLib := {|
  shlex_split s :=
    if Nat.even (count_quotes s) then Some (String.words s) else None;
  float b := inr ("could not convert string to float: b'" ++ b ++ "'")
|}.

Definition quoted_line : string :=
  "externalConnectors = " ++ String dq ("HDMI 1" ++ Sample.nl).

Definition quoted_conf : list string :=
  ["# display setup" ++ Sample.nl; quoted_line;
   "internalConnector = eDP1" ++ Sample.nl].

End SampleQuoting.

(** Machines on which something goes wrong. *)
Module SampleFaults.

Definition xrandr_error : exn := mkExn CalledProcessError "xrandr failed".
Definition import_error : exn :=
  mkExn (OtherError "ImportError") "No module named 'PyQt4'".

(** [xrandr] exits non-zero. *)
Definition broken_xrandr : World := {|
  w_home := Some "/home/user";
  w_fs := Sample.fs;
  w_getFrontend _ := Ok Sample.cli;
  w_ScreenSituation _ _ := Ok Sample.laptop_only;
  w_forXrandr _ _ := Ok ["xrandr"];
  w_check_call _ := Raise xrandr_error;
  w_check_output _ := Ok "0.000000";
|}.

(** The frontend asked for cannot be loaded. *)
Definition no_frontend : World := {|
  w_home := Some "/home/user";
  w_fs := Sample.fs;
  w_getFrontend _ := Raise import_error;
  w_ScreenSituation _ _ := Ok Sample.laptop_only;
  w_forXrandr _ _ := Ok ["xrandr"];
  w_check_call _ := Ok tt;
  w_check_output _ := Ok "0.000000";
|}.

(** No configuration file, and the detector only knows the built-in
    names. *)
Definition unconfigured : World := {|
  w_home := Some "/home/guest";
  w_fs := Sample.fs;
  w_getFrontend _ := Ok Sample.cli;
  w_ScreenSituation internalConnectors externalConnectors :=
    if decide (internalConnectors = commonInternalConnectorNames
               ∧ externalConnectors = None)
    then Ok Sample.laptop_only
    else Raise (mkExn Exception_ "Could not find internal connector");
  w_forXrandr _ _ := Ok ["xrandr"];
  w_check_call _ := Ok tt;
  w_check_output _ := Ok "100.000000";
|}.

End SampleFaults.

(** ** The command line *)

(** What [parser.parse_args()] (line 103) makes of the command line: the
    parsed arguments, or the [SystemExit] argparse raises itself, with
    status 2 after a usage error and status 0 after printing the help. *)
Inductive parse_result : Type :=
  | Parsed (cmdArgs : CmdArgs)
  | ParserExit (code : Z).

Definition parse_args (r : parse_result) : M CmdArgs :=
  match r with
  | Parsed cmdArgs => mret cmdArgs
  | ParserExit code => sys_exit code
  end.

Section Script.
Context `{PyLib}.
Variable w : World.

(** Lines 86-147, all that stands inside the [try]. *)
Definition script_body (r : parse_result) : M unit :=
  cmdArgs ← parse_args r;
  main_body w cmdArgs.

(** Lines 85-150. *)
Definition script (r : parse_result) : M unit :=
  try_except (script_body r) report.

End Script.

(** ** The lines of a text *)

Definition newline : ascii := ascii_of_nat 10.

(** The lines the file iterator yields for the decoded text [content]
    (line ends already translated to ['\n']): each runs up to and
    includes its line end; a last line without one comes as it is. *)
Fixpoint file_lines (content : string) : list string :=
  match content with
  | EmptyString => []
  | String c rest =>
      if decide (c = newline) then String c EmptyString :: file_lines rest
      else
        match file_lines rest with
        | [] => [String c EmptyString]
        | line :: lines => String c line :: lines
        end
  end.

(** The text is empty or its last character is a line end. *)
Fixpoint ends_with_newline (content : string) : bool :=
  match content with
  | EmptyString => true
  | String c rest =>
      match rest with
      | EmptyString => bool_decide (c = newline)
      | String _ _ => ends_with_newline rest
      end
  end.

(** Situations and command lines at the edge. *)
Module SampleEdges.

(** An external connector is there but reports no resolution. *)
Definition no_modes : ScreenSituation :=
  mkSituation [Sample.r1920; Sample.r1366] (Some []) [].

(** No connector at all reports a resolution and none is external. *)
Definition blank : ScreenSituation := mkSituation [] None [].

(** [dsl.py -r beside]: argparse rejects the choice. *)
Definition rejected : parse_result := ParserExit 2.

(** [dsl.py --help] *)
Definition help : parse_result := ParserExit 0.

End SampleEdges.

(** * Properties *)

(** ** What [index], [take] and [drop] find *)

Section StringFacts.
Import PyStr.

Lemma append_cons d (s t : string) : String d s ++ t = String d (s ++ t).
Proof. reflexivity. Qed.

Lemma append_nil (t : string) : "" ++ t = t.
Proof. reflexivity. Qed.

Lemma index_None c s : index c s = None ↔ mem c s = false.
Proof.
  induction s as [|d s IH]; simpl; [done|].
  destruct (decide (d = c)); [done|].
  rewrite fmap_None. exact IH.
Qed.

Lemma index_Some_split c s pos :
  index c s = Some pos →
  s = take pos s ++ String c (drop (pos + 1) s)
  ∧ mem c (take pos s) = false.
Proof.
  revert pos. induction s as [|d s IH]; intros pos; simpl; [done|].
  destruct (decide (d = c)) as [->|Hne].
  - intros [= <-]. done.
  - destruct (index c s) as [p|] eqn:Hp; simpl; [|done].
    intros [= <-]. destruct (IH p eq_refl) as [Hs Hm]. split; simpl.
    + rewrite append_cons. f_equal. exact Hs.
    + destruct (decide (d = c)); done.
Qed.

Lemma index_app_first c before after :
  mem c before = false →
  index c (before ++ String c after) = Some (String.length before)
  ∧ take (String.length before) (before ++ String c after) = before
  ∧ drop (String.length before + 1) (before ++ String c after) = after.
Proof.
  induction before as [|d before IH]; simpl.
  - intros _. destruct (decide (c = c)); done.
  - destruct (decide (d = c)) as [|Hne]; [done|]. intros Hm.
    destruct (IH Hm) as (-> & -> & ->). done.
Qed.

End StringFacts.

(** ** Config Loader *)

Section ConfigLoaderFacts.
Context `{PyLib}.

(** The source's extraction and the specification's words agree. *)
Lemma entry_of_is_entry line key tokens :
  entry_of line = Some (key, tokens) ↔ is_entry line key tokens.
Proof.
  unfold entry_of, is_entry. split.
  - destruct (PyStr.index "=" (PyStr.strip line)) as [pos|] eqn:Hpos; simpl; [|done].
    destruct (shlex_split _) as [toks|] eqn:Hsplit; simpl; [|done].
    intros [= <- <-].
    destruct (index_Some_split _ _ _ Hpos) as [Hs Hm].
    exists (PyStr.take pos (PyStr.strip line)),
           (PyStr.drop (pos + 1) (PyStr.strip line)).
    done.
  - intros (before & after & Hs & Hm & -> & Hsplit).
    rewrite Hs. rewrite append_cons, append_nil.
    destruct (index_app_first "=" before after Hm) as (Hi & Ht & Hd).
    rewrite Hi. simpl. rewrite Hd, Hsplit. simpl. by rewrite Ht.
Qed.

Lemma entry_of_lacks_equals line :
  lacks_equals line → entry_of line = None.
Proof.
  unfold lacks_equals, entry_of. intros Hm.
  apply index_None in Hm. rewrite Hm. done.
Qed.

Lemma line_ok_entry line :
  line_ok line → is_skipped line = true ∨ is_Some (entry_of line).
Proof.
  intros [Hs|(key & tokens & He)]; [by left|right].
  apply entry_of_is_entry in He. by rewrite He.
Qed.

(** One turn of the loop, by the kind of line. *)
Lemma read_lines_skip line f linenr result :
  is_skipped line = true →
  read_lines (line :: f) linenr result = read_lines f (S linenr) result.
Proof. unfold is_skipped. simpl. intros ->. done. Qed.

Lemma read_lines_store line f linenr result key tokens :
  is_skipped line = false →
  entry_of line = Some (key, tokens) →
  read_lines (line :: f) linenr result
  = read_lines f (S linenr) (<[key := tokens]> result).
Proof.
  unfold is_skipped, entry_of. simpl. intros ->.
  destruct (PyStr.index "=" (PyStr.strip line)) as [pos|]; simpl; [|done].
  destruct (shlex_split _) as [toks|]; simpl; [|done].
  intros [= <- <-]. done.
Qed.

Lemma read_lines_fail line f linenr result :
  is_skipped line = false →
  entry_of line = None →
  read_lines (line :: f) linenr result = Raise (parse_error (S linenr)).
Proof.
  unfold is_skipped, entry_of. simpl. intros ->.
  destruct (PyStr.index "=" (PyStr.strip line)) as [pos|]; simpl; [|done].
  destruct (shlex_split _) as [toks|]; simpl; done.
Qed.

(** A file of good lines loads, and every key holds its last binding. *)
Lemma read_lines_ok f linenr (result : Config) :
  Forall line_ok f →
  ∃ config : Config,
    read_lines f linenr result = Ok config
    ∧ ∀ key, config !! key
             = match last_binding f key with
               | Some tokens => Some tokens
               | None => result !! key
               end.
Proof.
  intros Hf. revert linenr result.
  induction Hf as [|line f Hline _ IH]; intros linenr result.
  - exists result. done.
  - destruct (is_skipped line) eqn:Hskip.
    + rewrite read_lines_skip by done.
      destruct (IH (S linenr) result) as (config & -> & Hc).
      exists config. split; [done|]. intros key. rewrite Hc. simpl.
      rewrite Hskip. by destruct (last_binding f key).
    + destruct (line_ok_entry _ Hline) as [?|[[k toks] He]]; [congruence|].
      rewrite (read_lines_store _ _ _ _ k toks) by done.
      destruct (IH (S linenr) (<[k := toks]> result)) as (config & -> & Hc).
      exists config. split; [done|]. intros key. rewrite Hc. simpl.
      rewrite Hskip, He. destruct (last_binding f key); [done|].
      destruct (decide (k = key)) as [->|Hne].
      * by rewrite lookup_insert_eq.
      * by rewrite lookup_insert_ne.
Qed.

(** The loop stops at the first line it cannot parse, and names it. *)
Lemma read_lines_first_failure f i line linenr (result : Config) :
  f !! i = Some line →
  Forall line_ok (take i f) →
  is_skipped line = false →
  entry_of line = None →
  read_lines f linenr result = Raise (parse_error (linenr + S i)).
Proof.
  revert i linenr result. induction f as [|l f IH]; intros i linenr result; [done|].
  destruct i as [|i]; simpl take.
  - intros [= ->] _ Hskip He. rewrite read_lines_fail by done.
    f_equal. f_equal. lia.
  - intros Hi Hok Hskip He. apply Forall_cons in Hok as [Hl Hok].
    replace (linenr + S (S i)) with (S linenr + S i) by lia.
    destruct (is_skipped l) eqn:Hs.
    + rewrite read_lines_skip by done. by apply IH.
    + destruct (line_ok_entry _ Hl) as [?|[[k toks] Hk]]; [congruence|].
      rewrite (read_lines_store _ _ _ _ k toks) by done. by apply IH.
Qed.

(** [last_binding], read off the lines of the file. *)
Lemma last_binding_None f key :
  last_binding f key = None ↔
  ∀ line tokens, line ∈ f → is_skipped line = false →
    entry_of line ≠ Some (key, tokens).
Proof.
  induction f as [|l f IH]; simpl.
  - split; [|done]. intros _ line tokens Hin. by apply elem_of_nil in Hin.
  - destruct (last_binding f key) as [t|].
    + split; [done|]. intros Hall. exfalso.
      assert (Some t = None) as Hcontra; [|done].
      apply IH. intros line tokens Hin. apply Hall. by right.
    + destruct IH as [IH _]. specialize (IH eq_refl). split.
      * intros Hl line tokens [->|Hin]%elem_of_cons Hs He; [|by eapply IH].
        rewrite Hs, He in Hl. by destruct (decide (key = key)).
      * intros Hall. destruct (is_skipped l) eqn:Hs; [done|].
        destruct (entry_of l) as [[k t]|] eqn:He; [|done].
        destruct (decide (k = key)) as [->|]; [|done].
        exfalso. apply (Hall l t); [by left|done..].
Qed.

Lemma last_binding_elem f key tokens :
  last_binding f key = Some tokens →
  ∃ line, line ∈ f ∧ is_skipped line = false
    ∧ entry_of line = Some (key, tokens).
Proof.
  induction f as [|l f IH]; simpl; [done|].
  destruct (last_binding f key) as [t|].
  - intros [= ->]. destruct (IH eq_refl) as (line & Hin & Hl).
    exists line. split; [by right|done].
  - destruct (is_skipped l) eqn:Hs; [done|].
    destruct (entry_of l) as [[k t]|] eqn:He; [|done].
    destruct (decide (k = key)) as [->|]; [|done].
    intros [= ->]. exists l. split; [by left|done].
Qed.

Lemma last_binding_last before line after key tokens :
  is_skipped line = false →
  entry_of line = Some (key, tokens) →
  (∀ line' tokens', line' ∈ after → is_skipped line' = false →
     entry_of line' ≠ Some (key, tokens')) →
  last_binding (before ++ line :: after) key = Some tokens.
Proof.
  intros Hs He Hafter. apply last_binding_None in Hafter.
  induction before as [|l before IH]; simpl.
  - rewrite Hafter, Hs, He. by destruct (decide (key = key)).
  - by rewrite IH.
Qed.

End ConfigLoaderFacts.

Lemma length_zero_empty (s : string) :
  (String.length s =? 0)%nat = false ↔ s ≠ "".
Proof. destruct s; simpl; split; done. Qed.

Lemma is_skipped_false line :
  PyStr.strip line ≠ "" →
  PyStr.startswith "#" (PyStr.strip line) = false →
  is_skipped line = false.
Proof.
  intros Hne Hc. unfold is_skipped. simpl.
  apply length_zero_empty in Hne. by rewrite Hne, Hc.
Qed.

Lemma length_append (a b : string) :
  String.length (a ++ b) = String.length a + String.length b.
Proof. induction a as [|c a IH]; simpl; [done|]. by rewrite IH. Qed.

Lemma append_cancel_r (a b t : string) : a ++ t = b ++ t → a = b.
Proof.
  revert b. induction a as [|c a IH]; intros [|d b] Heq; [done| | |].
  - exfalso. apply (f_equal String.length) in Heq.
    rewrite append_nil, append_cons in Heq. simpl in Heq.
    rewrite length_append in Heq. lia.
  - exfalso. apply (f_equal String.length) in Heq.
    rewrite append_nil, append_cons in Heq. simpl in Heq.
    rewrite length_append in Heq. lia.
  - rewrite !append_cons in Heq. injection Heq as -> Heq.
    f_equal. by apply IH.
Qed.

(** Distinct line numbers give distinct messages. *)
Lemma parse_error_inj n m : parse_error n = parse_error m → n = m.
Proof.
  unfold parse_error. intros [= Heq].
  apply (inj (String.app _)) in Heq.
  apply append_cancel_r in Heq.
  by apply (inj pretty) in Heq.
Qed.

(** C5. [loadConfigFile] returns an empty mapping when the file does not
    exist; for a file made only of blank lines, comment lines and
    well-formed lines it returns a mapping whose keys are exactly the
    trimmed portions before the first ['='] of the well-formed lines, and
    every key is mapped to the token split of the portion after the
    ['='] of such a line. *)
Theorem loadConfigFile_well_formed `{PyLib}
    (fs : string → option (list string)) (filename : string) :
  (fs filename = None → loadConfigFile fs filename = Ok ∅)
  ∧ (∀ f, fs filename = Some f → Forall line_ok f →
       ∃ config : Config,
         loadConfigFile fs filename = Ok config
         ∧ (∀ key, key ∈ dom config ↔
              ∃ line tokens, line ∈ f ∧ is_skipped line = false
                ∧ is_entry line key tokens)
         ∧ (∀ key tokens, config !! key = Some tokens →
              ∃ line, line ∈ f ∧ is_skipped line = false
                ∧ is_entry line key tokens)).
Proof.
  unfold loadConfigFile. split.
  - intros ->. done.
  - intros f -> Hok.
    destruct (read_lines_ok f 0 ∅ Hok) as (config & Hload & Hc).
    exists config. split; [done|]. split.
    + intros key. rewrite elem_of_dom, Hc. split.
      * destruct (last_binding f key) as [t|] eqn:Hlast.
        -- intros _. destruct (last_binding_elem _ _ _ Hlast) as (line & Hin & Hs & He).
           exists line, t. by rewrite <- entry_of_is_entry.
        -- rewrite lookup_empty. by intros [? ?].
      * intros (line & tokens & Hin & Hs & He%entry_of_is_entry).
        destruct (last_binding f key) as [t|] eqn:Hlast; [done|].
        exfalso. eapply last_binding_None; done.
    + intros key tokens. rewrite Hc.
      destruct (last_binding f key) as [t|] eqn:Hlast; [|by rewrite lookup_empty].
      intros [= ->]. destruct (last_binding_elem _ _ _ Hlast) as (line & Hin & Hs & He).
      exists line. by rewrite <- entry_of_is_entry.
Qed.

(** C6, as amended. For the first line the loader cannot parse: when that
    line is non-empty after trimming, does not start with ['#'] and
    contains no ['='], and every line before it is blank, a comment or
    well-formed, [loadConfigFile] raises the parse error whose message
    names that line's 1-based physical number; lines passed over count. *)
Theorem loadConfigFile_names_bad_line `{PyLib}
    (fs : string → option (list string)) (filename : string)
    (f : list string) (i : nat) (line : string) :
  fs filename = Some f →
  f !! i = Some line →
  PyStr.strip line ≠ "" →
  PyStr.startswith "#" (PyStr.strip line) = false →
  lacks_equals line →
  Forall line_ok (take i f) →
  loadConfigFile fs filename = Raise (parse_error (S i))
  ∧ exn_str (parse_error (S i))
    = "Invalid config, line " ++ pretty (S i)
      ++ ": Error parsing line (may be a quoting issue)."
  ∧ ∀ n, parse_error n = parse_error (S i) → n = S i.
Proof.
  intros Hfs Hi Hne Hc Hlack Hbefore. unfold loadConfigFile. rewrite Hfs.
  split; [|split; [done|intros n; apply parse_error_inj]].
  apply (read_lines_first_failure f i line 0 ∅); try done.
  - by apply is_skipped_false.
  - by apply entry_of_lacks_equals.
Qed.

(** C9. When a key is stored by more than one well-formed line, the
    mapping [loadConfigFile] returns holds the tokens of the last of
    them: whatever the lines before it stored under the key is
    overwritten, and the load succeeds. *)
Theorem loadConfigFile_last_wins `{PyLib}
    (fs : string → option (list string)) (filename : string)
    (before after : list string) (line key : string) (tokens : list string) :
  fs filename = Some (before ++ line :: after)%list →
  Forall line_ok (before ++ line :: after)%list →
  is_skipped line = false →
  is_entry line key tokens →
  (∀ line' tokens', line' ∈ after → is_skipped line' = false →
     ¬ is_entry line' key tokens') →
  ∃ config : Config,
    loadConfigFile fs filename = Ok config ∧ config !! key = Some tokens.
Proof.
  intros Hfs Hok Hs He Hafter. unfold loadConfigFile. rewrite Hfs.
  destruct (read_lines_ok _ 0 ∅ Hok) as (config & Hload & Hc).
  exists config. split; [done|]. rewrite Hc.
  rewrite (last_binding_last before line after key tokens); try done.
  - by apply entry_of_is_entry.
  - intros line' tokens' Hin Hs' He'%entry_of_is_entry. by eapply Hafter.
Qed.

Lemma loadConfigFile_well_formed_witness :
  loadConfigFile (H:=Sample.lib) Sample.fs "/etc/none.conf" = Ok ∅
  ∧ ∃ config : Config,
      loadConfigFile (H:=Sample.lib) Sample.fs Sample.conf_path = Ok config
      ∧ (∀ key, key ∈ dom config ↔
           ∃ line tokens, line ∈ Sample.dsl_conf
             ∧ is_skipped line = false
             ∧ is_entry (H:=Sample.lib) line key tokens)
      ∧ (∀ key tokens, config !! key = Some tokens →
           ∃ line, line ∈ Sample.dsl_conf ∧ is_skipped line = false
             ∧ is_entry (H:=Sample.lib) line key tokens).
Proof.
  split.
  - apply (loadConfigFile_well_formed (H:=Sample.lib)). reflexivity.
  - apply (loadConfigFile_well_formed (H:=Sample.lib)); [reflexivity|].
    unfold Sample.dsl_conf. each_line.
    + left. reflexivity.
    + left. reflexivity.
    + right. exists "internalConnector", ["eDP1"].
      apply entry_of_is_entry. reflexivity.
    + right. exists "externalConnectors", ["HDMI1"; "VGA1"].
      apply entry_of_is_entry. reflexivity.
Defined.

Lemma loadConfigFile_names_bad_line_witness :
  loadConfigFile (H:=Sample.lib) Sample.fs "/etc/bad.conf" = Raise (parse_error 3)
  ∧ exn_str (parse_error 3)
    = "Invalid config, line 3: Error parsing line (may be a quoting issue)."
  ∧ ∀ n, parse_error n = parse_error 3 → n = 3.
Proof.
  apply (loadConfigFile_names_bad_line (H:=Sample.lib) Sample.fs "/etc/bad.conf"
           Sample.bad_conf 2 ("internalConnector eDP1" ++ Sample.nl)).
  - reflexivity.
  - reflexivity.
  - vm_compute. discriminate.
  - reflexivity.
  - reflexivity.
  - simpl. each_line; left; reflexivity.
Defined.

(** C6, as stated, fails on a file with two lines that lack ['=']: the
    second line meets every condition of the claim, and the error names
    line 1. *)
Lemma loadConfigFile_second_bad_line :
  Sample.fs "/etc/two.conf" = Some ["a"; "b"]
  ∧ ["a"; "b"] !! 1 = Some "b"
  ∧ PyStr.strip "b" ≠ ""
  ∧ PyStr.startswith "#" (PyStr.strip "b") = false
  ∧ lacks_equals "b"
  ∧ loadConfigFile (H:=Sample.lib) Sample.fs "/etc/two.conf" = Raise (parse_error 1)
  ∧ loadConfigFile (H:=Sample.lib) Sample.fs "/etc/two.conf" ≠ Raise (parse_error 2).
Proof.
  repeat split; try reflexivity.
  - vm_compute. discriminate.
  - vm_compute. discriminate.
Qed.

Lemma loadConfigFile_last_wins_witness :
  ∃ config : Config,
    loadConfigFile (H:=Sample.lib) Sample.fs "/etc/dup.conf" = Ok config
    ∧ config !! "a" = Some ["2"].
Proof.
  apply (loadConfigFile_last_wins (H:=Sample.lib) Sample.fs "/etc/dup.conf"
           ["a = 1" ++ Sample.nl] ["b = 3" ++ Sample.nl] ("a = 2" ++ Sample.nl)).
  - reflexivity.
  - each_line.
    + right. exists "a", ["1"]. apply entry_of_is_entry. reflexivity.
    + right. exists "a", ["2"]. apply entry_of_is_entry. reflexivity.
    + right. exists "b", ["3"]. apply entry_of_is_entry. reflexivity.
  - reflexivity.
  - apply entry_of_is_entry. reflexivity.
  - intros line' tokens' Hin%list_elem_of_singleton _ He%entry_of_is_entry.
    subst line'. vm_compute in He. discriminate.
Defined.

(** ** Situation detection *)

Lemma commonInternalConnectorNames_product name :
  name ∈ commonInternalConnectorNames ↔
  ∃ prefix suffix, prefix ∈ commonInternalConnectorPrefixes
    ∧ suffix ∈ commonInternalConnectorSuffices
    ∧ name = prefix ++ suffix.
Proof.
  unfold commonInternalConnectorNames. rewrite list_elem_of_bind. split.
  - intros (prefix & (suffix & ->%list_elem_of_singleton & Hs)%list_elem_of_bind & Hp).
    by exists prefix, suffix.
  - intros (prefix & suffix & Hp & Hs & ->). exists prefix. split; [|done].
    apply list_elem_of_bind. exists suffix. split; [|done].
    by apply list_elem_of_singleton.
Qed.

(** C4. [situationByConfig] fails with the configuration error whenever
    the configuration maps [internalConnector] to a list of any length
    other than one; with exactly one token, that token alone is handed to
    the detector as the internal-connector candidate, in place of the
    built-in names; with the key absent, the candidates are the names of
    the prefix-suffix cross product, in the order the loops yield them. *)
Theorem situationByConfig_internalConnector (w : World) (config : Config) :
  (∀ names, config !! "internalConnector" = Some names →
     List.length names ≠ 1 →
     situationByConfig w config = Raise config_error)
  ∧ (∀ name, config !! "internalConnector" = Some [name] →
       situationByConfig w config
       = w_ScreenSituation w [name] (config !! "externalConnectors"))
  ∧ (config !! "internalConnector" = None →
       situationByConfig w config
       = w_ScreenSituation w
           ["LVDS"; "LVDS0"; "LVDS1"; "LVDS-0"; "LVDS-1";
            "eDP"; "eDP0"; "eDP1"; "eDP-0"; "eDP-1"]
           (config !! "externalConnectors")
       ∧ ∀ name, name ∈ commonInternalConnectorNames ↔
           ∃ prefix suffix, prefix ∈ ["LVDS"; "eDP"]
             ∧ suffix ∈ [""; "0"; "1"; "-0"; "-1"]
             ∧ name = prefix ++ suffix).
Proof.
  unfold situationByConfig. split; [|split].
  - intros names -> Hlen. simpl. by destruct (decide (List.length names ≠ 1)).
  - intros name ->. done.
  - intros ->. split; [done|].
    apply commonInternalConnectorNames_product.
Qed.

Lemma situationByConfig_internalConnector_witness :
  situationByConfig (Sample.machine Sample.docked (Ok "0.000000") (Ok tt))
    {["internalConnector" := ["eDP1"; "LVDS1"]]}
  = Raise config_error
  ∧ situationByConfig (Sample.machine Sample.docked (Ok "0.000000") (Ok tt))
      {["internalConnector" := ["eDP1"]]}
    = Ok Sample.docked
  ∧ situationByConfig (Sample.machine Sample.docked (Ok "0.000000") (Ok tt)) ∅
    = Ok Sample.docked.
Proof.
  split; [|split].
  - apply (situationByConfig_internalConnector _ _) with (names := ["eDP1"; "LVDS1"]).
    + reflexivity.
    + simpl. lia.
  - apply (proj1 (proj2 (situationByConfig_internalConnector
             (Sample.machine Sample.docked (Ok "0.000000") (Ok tt))
             {["internalConnector" := ["eDP1"]]})) "eDP1").
    reflexivity.
  - apply (proj2 (proj2 (situationByConfig_internalConnector
             (Sample.machine Sample.docked (Ok "0.000000") (Ok tt)) ∅))).
    reflexivity.
Defined.

(** ** Setup Builder *)

(** C1, as amended. Whenever [--internal-only] is set, or the situation
    reports no external screen ([externalResolutions()] is [None]), a
    constructed [ScreenSetup] has the first entry of the internal
    resolution list as its internal resolution and no external
    resolution, whatever [--external-only] and [--relative-position]
    say; and one is constructed as soon as the internal list has an
    entry. *)
Theorem construct_setup_internal_only
    (cmdArgs : CmdArgs) (situation : ScreenSituation) (st : state) :
  internal_only cmdArgs = true ∨ externalResolutions situation = None →
  (∀ st' setup, construct_setup cmdArgs situation st = (st', Val setup) →
     ∃ r, head (internalResolutions situation) = Some r
       ∧ intResolution setup = Some r
       ∧ extResolution setup = None)
  ∧ (∀ r rest, internalResolutions situation = r :: rest →
       construct_setup cmdArgs situation st
       = (st, Val (mkSetup (Some r) None None))).
Proof.
  intros Hcase.
  assert (construct_setup cmdArgs situation st
          = (i ← lift (first_item (internalResolutions situation));
             mret (mkSetup (Some i) None None)) st) as ->.
  { unfold construct_setup.
    destruct Hcase as [-> | ->]; [done|].
    by destruct (internal_only cmdArgs). }
  destruct (internalResolutions situation) as [|r rest]; split.
  - intros st' setup Hrun. discriminate.
  - intros r rest Hnil. discriminate.
  - intros st' setup [= <- <-]. by exists r.
  - by intros r' rest' [= <- <-].
Qed.

Lemma construct_setup_internal_only_witness :
  construct_setup Sample.args_internal Sample.docked Sample.start
  = (Sample.start, Val (mkSetup (Some Sample.r1920) None None)).
Proof.
  apply (construct_setup_internal_only Sample.args_internal Sample.docked
           Sample.start) with (rest := [Sample.r1366]).
  - left. reflexivity.
  - reflexivity.
Defined.

(** C1, as stated, fails for an external connector that reports an empty
    resolution list: no external resolution is there, yet line 116 only
    tests for [None], and the other flags decide. With [--external-only]
    the indexing of the empty list raises and no setup is built, least of
    all the one on the internal resolution; with no flag the user is
    asked. *)
Lemma construct_setup_empty_external_list :
  externalResolutions SampleEdges.no_modes = Some []
  ∧ internal_only Sample.args_external = false
  ∧ head (internalResolutions SampleEdges.no_modes) = Some Sample.r1920
  ∧ construct_setup Sample.args_external SampleEdges.no_modes Sample.start
    = (Sample.start, Exc (mkExn IndexError "list index out of range"))
  ∧ construct_setup Sample.args_external SampleEdges.no_modes Sample.start
    ≠ (Sample.start, Val (mkSetup (Some Sample.r1920) None None))
  ∧ construct_setup Sample.args_interactive SampleEdges.no_modes Sample.start
    = (mkState Sample.cli [EvFrontendSetup "cli"], SysExit 1).
Proof. repeat split; try reflexivity. discriminate. Qed.

(** C3. With [--external-only] passed, [--internal-only] not set and an
    external resolution at hand, the constructed [ScreenSetup] has the
    first entry of the external resolution list as its external
    resolution and no internal resolution. *)
Theorem construct_setup_external_only
    (cmdArgs : CmdArgs) (situation : ScreenSituation) (st : state)
    (e : Resolution) (rest : list Resolution) :
  external_only cmdArgs = true →
  internal_only cmdArgs = false →
  externalResolutions situation = Some (e :: rest) →
  construct_setup cmdArgs situation st = (st, Val (mkSetup None (Some e) None)).
Proof.
  intros He Hi Hext. unfold construct_setup. by rewrite Hi, Hext, He.
Qed.

Lemma construct_setup_external_only_witness :
  construct_setup Sample.args_external Sample.docked Sample.start
  = (Sample.start, Val (mkSetup None (Some Sample.r1280) None)).
Proof.
  apply (construct_setup_external_only Sample.args_external Sample.docked
           Sample.start Sample.r1280 [Sample.r1920]); reflexivity.
Defined.

(** C2, as amended. With [--relative-position mirror], an external
    screen connected and neither [--internal-only] nor [--external-only]
    in force: when the internal and the external connector share no
    resolution the construction fails with the plain [IndexError] of
    indexing the empty common-resolution list; when they share one, the
    first entry of the situation's common-resolution list becomes both
    the internal and the external resolution of the [ScreenSetup],
    positioned [MIRROR]. *)
Theorem construct_setup_mirror
    (cmdArgs : CmdArgs) (situation : ScreenSituation) (st : state)
    (extRes : list Resolution) :
  rel_position cmdArgs = Some "mirror" →
  internal_only cmdArgs = false →
  external_only cmdArgs = false →
  externalResolutions situation = Some extRes →
  common_is_shared situation →
  ((∀ r, ¬ (r ∈ internalResolutions situation ∧ r ∈ extRes)) →
     construct_setup cmdArgs situation st
     = (st, Exc (mkExn IndexError "list index out of range")))
  ∧ ((∃ r, r ∈ internalResolutions situation ∧ r ∈ extRes) →
       ∃ r, head (commonResolutions situation) = Some r
         ∧ r ∈ internalResolutions situation ∧ r ∈ extRes
         ∧ construct_setup cmdArgs situation st
           = (st, Val (mkSetup (Some r) (Some r) (Some MIRROR)))).
Proof.
  intros Hpos Hi He Hext Hcommon.
  assert (construct_setup cmdArgs situation st
          = (r ← lift (first_item (commonResolutions situation));
             mret (mkSetup (Some r) (Some r) (Some MIRROR))) st) as ->.
  { unfold construct_setup. by rewrite Hi, Hext, He, Hpos. }
  split.
  - intros Hnone. destruct (commonResolutions situation) as [|r rest] eqn:Hc; [done|].
    exfalso. apply (Hnone r).
    destruct (proj1 (Hcommon r)) as (Hin & ext' & Hext' & Hin').
    { rewrite Hc. by left. }
    rewrite Hext in Hext'. by injection Hext' as <-.
  - intros (r0 & Hin & Hin').
    destruct (commonResolutions situation) as [|r rest] eqn:Hc.
    + exfalso. apply (elem_of_nil r0). rewrite <- Hc. apply Hcommon.
      split; [done|]. by exists extRes.
    + exists r. split; [done|].
      destruct (proj1 (Hcommon r)) as (Hr & ext' & Hext' & Hr').
      { rewrite Hc. by left. }
      rewrite Hext in Hext'. injection Hext' as <-. done.
Qed.

Lemma docked_common : common_is_shared Sample.docked.
Proof.
  intros r. simpl. split.
  - intros ->%list_elem_of_singleton. split; [set_solver|].
    eexists. split; [done|]. set_solver.
  - intros (Hin & ext & [= <-] & Hext).
    apply elem_of_cons in Hext as [Hr|Hr].
    + exfalso. subst r.
      apply elem_of_cons in Hin as [Heq|Hin]; [discriminate|].
      apply list_elem_of_singleton in Hin. discriminate.
    + exact Hr.
Qed.

Lemma disjoint_common : common_is_shared Sample.disjoint.
Proof.
  intros r. simpl. split.
  - intros Hin. by apply elem_of_nil in Hin.
  - intros (->%list_elem_of_singleton & ext & [= <-] & Hext%list_elem_of_singleton).
    done.
Qed.

Lemma construct_setup_mirror_witness :
  construct_setup Sample.args_mirror Sample.disjoint Sample.start
  = (Sample.start, Exc (mkExn IndexError "list index out of range"))
  ∧ ∃ r, head (commonResolutions Sample.docked) = Some r
      ∧ r ∈ internalResolutions Sample.docked
      ∧ r ∈ [Sample.r1280; Sample.r1920]
      ∧ construct_setup Sample.args_mirror Sample.docked Sample.start
        = (Sample.start, Val (mkSetup (Some r) (Some r) (Some MIRROR))).
Proof.
  split.
  - apply (construct_setup_mirror Sample.args_mirror Sample.disjoint
             Sample.start [Sample.r1280]); try reflexivity.
    + exact disjoint_common.
    + intros r [Hi%list_elem_of_singleton He%list_elem_of_singleton].
      subst r. discriminate.
  - apply (construct_setup_mirror Sample.args_mirror Sample.docked
             Sample.start [Sample.r1280; Sample.r1920]); try reflexivity.
    + exact docked_common.
    + exists Sample.r1920. split; set_solver.
Defined.

(** C2, as stated, fails on the error: with no shared resolution the
    exception is an [IndexError] with the text every empty list gives,
    the same one an empty internal list raises with [--internal-only];
    its class is not a [NoCommonResolutionError], and nothing in it tells
    of a missing common resolution. *)
Lemma construct_setup_mirror_index_error :
  rel_position Sample.args_mirror = Some "mirror"
  ∧ externalResolutions Sample.disjoint = Some [Sample.r1280]
  ∧ (∀ r, ¬ (r ∈ internalResolutions Sample.disjoint ∧ r ∈ [Sample.r1280]))
  ∧ construct_setup Sample.args_mirror Sample.disjoint Sample.start
    = (Sample.start, Exc (mkExn IndexError "list index out of range"))
  ∧ exn_cls (mkExn IndexError "list index out of range")
    ≠ OtherError "NoCommonResolutionError"
  ∧ construct_setup Sample.args_internal SampleEdges.blank Sample.start
    = construct_setup Sample.args_mirror Sample.disjoint Sample.start.
Proof.
  repeat split; try reflexivity; try discriminate.
  intros r [Hi%list_elem_of_singleton He%list_elem_of_singleton].
  subst r. discriminate.
Qed.

(** ** Backlight *)

Section Backlight.
Context `{PyLib}.
Variable w : World.

Lemma apply_setup_run situation setup st xrandrCall :
  w_forXrandr w situation setup = Ok xrandrCall →
  w_check_call w xrandrCall = Ok tt →
  apply_setup w situation setup st
  = match extResolution setup with
    | None => turnOnBacklight w (applied st xrandrCall)
    | Some _ => (applied st xrandrCall, Val tt)
    end.
Proof.
  intros Hx Hcall. unfold apply_setup, applied. run_M.
  rewrite Hx. simpl. rewrite Hcall. simpl.
  rewrite <- app_assoc. simpl. by destruct (extResolution setup).
Qed.

Lemma turnOnBacklight_unparsed st msg :
  reading_unparsed w msg →
  turnOnBacklight w st
  = (mkState (frontend st)
       (trace st ++ [EvCheckOutput ["xbacklight"; "-get"]]),
     Exc (mkExn ValueError msg)).
Proof.
  intros (out & Hout & Hfloat). unfold turnOnBacklight. run_M.
  rewrite Hout. simpl. rewrite Hfloat. simpl. done.
Qed.


Lemma turnOnBacklight_propagates st e :
  utility_raises w e →
  exn_cls e ≠ FileNotFoundError →
  exn_cls e ≠ CalledProcessError →
  ∃ st', turnOnBacklight w st = (st', Exc e).
Proof.
  intros Hraise Hfnf Hcpe. unfold turnOnBacklight. run_M.
  destruct Hraise as [Hq|[(out & x & Hq & Hf & Hz) Hs]].
  - rewrite Hq. simpl. destruct (exn_cls e); try done; by eexists.
  - rewrite Hq. simpl. rewrite Hf. simpl. rewrite Hz, Hs. simpl.
    destruct (exn_cls e); try done; by eexists.
Qed.

Lemma turnOnBacklight_raises st st' e :
  turnOnBacklight w st = (st', Exc e) →
  (utility_raises w e
   ∧ exn_cls e ≠ FileNotFoundError ∧ exn_cls e ≠ CalledProcessError)
  ∨ (∃ msg, reading_unparsed w msg ∧ e = mkExn ValueError msg).
Proof.
  unfold turnOnBacklight, utility_raises, reads_zero, reading_unparsed. run_M.
  destruct (w_check_output w ["xbacklight"; "-get"]) as [out|e0]; simpl.
  - destruct (float (PyStr.strip_bytes out)) as [x|msg] eqn:Hf; simpl.
    + destruct (is_zero x) eqn:Hz; simpl; [|done].
      destruct (w_check_call w ["xbacklight"; "-set"; "100"]) as [[]|e0];
        simpl; [done|].
      destruct (exn_cls e0) eqn:Hc; simpl; try done;
        intros [= <- <-]; left; rewrite Hc;
        (split; [right; split; [by exists out, x|done]|done]).
    + intros [= <- <-]. right. exists msg. split; [by exists out|done].
  - destruct (exn_cls e0) eqn:Hc; simpl; try done;
      intros [= <- <-]; left; rewrite Hc; (split; [by left|done]).
Qed.

End Backlight.

(** ** The frontend and the exit status through a run *)

Section Tame.

Lemma tame_ret {A} (a : A) : tame (mret a).
Proof. intros st st' o [= <- <-]. done. Qed.

Lemma tame_raise {A} (e : exn) : tame (raise (A:=A) e).
Proof. intros st st' o [= <- <-]. done. Qed.

Lemma tame_sys_exit {A} : tame (sys_exit (A:=A) 1).
Proof. intros st st' o [= <- <-]. split; [done|]. by intros code [= <-]. Qed.

Lemma tame_lift {A} (r : res A) : tame (lift r).
Proof. destruct r; [apply tame_ret|apply tame_raise]. Qed.

Lemma tame_emit ev : tame (emit ev).
Proof. intros st st' o [= <- <-]. done. Qed.

Lemma tame_get_frontend : tame get_frontend.
Proof. intros st st' o [= <- <-]. done. Qed.

Lemma tame_bind {A B} (m : M A) (f : A → M B) :
  tame m → (∀ a, tame (f a)) → tame (m ≫= f).
Proof.
  intros Hm Hf st st' o. unfold mbind, M_bind.
  destruct (m st) as [st1 [a|e|c]] eqn:Hrun;
    destruct (Hm _ _ _ Hrun) as [Hfe Hexit].
  - intros Hrun'. destruct (Hf a _ _ _ Hrun') as [Hfe' Hexit'].
    split; [congruence|done].
  - intros [= <- <-]. done.
  - intros [= <- <-]. split; [done|]. intros code [= <-]. by apply Hexit.
Qed.

Lemma tame_try_except {A} (body : M A) (handler : exn → M A) :
  tame body → (∀ e, tame (handler e)) → tame (try_except body handler).
Proof.
  intros Hb Hh st st' o. unfold try_except.
  destruct (body st) as [st1 [a|e|c]] eqn:Hrun;
    destruct (Hb _ _ _ Hrun) as [Hfe Hexit].
  - intros [= <- <-]. done.
  - intros Hrun'. destruct (Hh e _ _ _ Hrun') as [Hfe' Hexit'].
    split; [congruence|done].
  - intros [= <- <-]. split; [done|]. intros code [= <-]. by apply Hexit.
Qed.

End Tame.

(** Works through a computation built from the operations above. *)
Ltac tame_with known :=
  repeat first
    [ known
    | apply tame_ret | apply tame_raise | apply tame_sys_exit
    | apply tame_lift | apply tame_emit | apply tame_get_frontend
    | apply tame_bind; [|intros ?]
    | apply tame_try_except; [|intros ?]
    | match goal with
      | |- tame (match ?x with _ => _ end) => destruct x
      end ].
Ltac tame_tac := tame_with fail.

Section TopLevel.
Context `{PyLib}.
Variable w : World.

Lemma tame_turnOnBacklight : tame (turnOnBacklight w).
Proof. unfold turnOnBacklight, check_output, check_call, float_of, print. tame_tac. Qed.

Lemma tame_construct_setup cmdArgs situation :
  tame (construct_setup cmdArgs situation).
Proof. unfold construct_setup. tame_tac. Qed.

Lemma tame_apply_setup situation setup : tame (apply_setup w situation setup).
Proof.
  unfold apply_setup, check_call. tame_with ltac:(apply tame_turnOnBacklight).
Qed.

(** After [prepare], and so after the whole body, [frontend] is the one
    [gui.getFrontend] returned, or still the fallback if that raised. *)
Lemma main_body_tame cmdArgs st st' o :
  main_body w cmdArgs st = (st', o) →
  frontend st'
  = match w_getFrontend w (arg_frontend cmdArgs) with
    | Ok fe => fe
    | Raise _ => frontend st
    end
  ∧ ∀ code, o = SysExit code → code = 1%Z.
Proof.
  unfold main_body, prepare.
  destruct (w_getFrontend w (arg_frontend cmdArgs)) as [fe|e].
  - intros Hrun.
    change (frontend st' = frontend (mkState fe (trace st))
            ∧ ∀ code, o = SysExit code → code = 1%Z).
    revert Hrun. unfold mbind at 1 2 3, M_bind at 1 2 3. simpl.
    match goal with
    | |- context [match ?m (mkState fe (trace st)) with _ => _ end] =>
        assert (tame m) as Hm
    end.
    { tame_with ltac:(apply tame_construct_setup). }
    match goal with
    | |- context [match ?m (mkState fe (trace st)) with _ => _ end] =>
        destruct (m (mkState fe (trace st))) as [st1 [a|e|c]] eqn:Hrun;
        destruct (Hm _ _ _ Hrun) as [Hfe Hexit]; simpl in Hfe
    end.
    + intros Hrun'.
      destruct (tame_apply_setup _ _ _ _ _ Hrun') as [Hfe' Hexit'].
      split; [congruence|done].
    + intros [= <- <-]. done.
    + intros [= <- <-]. split; [done|]. intros code [= <-]. by apply Hexit.
  - intros [= <- <-]. done.
Qed.

Lemma main_body_run cmdArgs st st1 situation setup :
  prepare w cmdArgs st = (st1, Val (situation, setup)) →
  main_body w cmdArgs st = apply_setup w situation setup st1.
Proof. intros Hp. unfold main_body. run_M. by rewrite Hp. Qed.

Lemma main_reports cmdArgs st st' e :
  main_body w cmdArgs st = (st', Exc e) →
  main w cmdArgs st
  = (mkState (frontend st')
       (trace st' ++ [EvFrontendError (fe_name (frontend st')) (exn_str e)]),
     Exc e).
Proof. intros Hb. unfold main, report. run_M. by rewrite Hb. Qed.

Lemma main_passes cmdArgs st st' o :
  main_body w cmdArgs st = (st', o) →
  (∀ e, o ≠ Exc e) →
  main w cmdArgs st = (st', o).
Proof.
  intros Hb Hne. unfold main. run_M. rewrite Hb.
  destruct o as [a|e|c]; [done| |done]. by destruct (Hne e).
Qed.

End TopLevel.



(** C10. [turnOnBacklight] swallows a failure of the brightness utility
    exactly when it is the missing binary ([FileNotFoundError]) or a
    non-zero exit ([CalledProcessError]): an exception leaves the routine
    if and only if the utility raised one of another class, or the query
    succeeded and its output did not parse as a number. In the latter
    case the error ends the run through the top-level handler. *)
Theorem turnOnBacklight_suppresses `{PyLib} (w : World) (st : state) :
  (∀ e, (∃ st', turnOnBacklight w st = (st', Exc e)) ↔
        (utility_raises w e
         ∧ exn_cls e ≠ FileNotFoundError ∧ exn_cls e ≠ CalledProcessError)
        ∨ (∃ msg, reading_unparsed w msg ∧ e = mkExn ValueError msg))
  ∧ (∀ cmdArgs st0 situation setup xrandrCall msg,
       prepare w cmdArgs st0 = (st, Val (situation, setup)) →
       extResolution setup = None →
       w_forXrandr w situation setup = Ok xrandrCall →
       w_check_call w xrandrCall = Ok tt →
       reading_unparsed w msg →
       ∃ st',
         main w cmdArgs st0 = (st', Exc (mkExn ValueError msg))
         ∧ last (trace st') = Some (EvFrontendError (fe_name (frontend st)) msg)
         ∧ exit_status (main w cmdArgs st0).2 ≠ 0%Z).
Proof.
  split.
  - intros e. split.
    + intros [st' Hrun]. by eapply turnOnBacklight_raises.
    + intros [(Hraise & Hfnf & Hcpe)|(msg & Hmsg & ->)].
      * by apply turnOnBacklight_propagates.
      * eexists. by apply turnOnBacklight_unparsed.
  - intros cmdArgs st0 situation setup xrandrCall msg Hprep Hnone Hx Hcall Hmsg.
    pose proof (turnOnBacklight_unparsed w (applied st xrandrCall) msg Hmsg)
      as Hrun.
    assert (main_body w cmdArgs st0 = turnOnBacklight w (applied st xrandrCall))
      as Hbody.
    { rewrite (main_body_run w cmdArgs st0 st situation setup Hprep).
      rewrite (apply_setup_run w situation setup st xrandrCall Hx Hcall).
      by rewrite Hnone. }
    rewrite Hrun in Hbody.
    eexists. rewrite (main_reports w cmdArgs st0 _ _ Hbody).
    split; [done|]. simpl. split; [by rewrite last_snoc|done].
Qed.

Lemma turnOnBacklight_suppresses_witness :
  ∃ st',
    main (H:=Sample.lib)
      (Sample.machine Sample.laptop_only (Ok ("junk" ++ Sample.nl)) (Ok tt))
      Sample.args_interactive Sample.start
    = (st', Exc (mkExn ValueError "could not convert string to float: b'junk'"))
    ∧ last (trace st')
      = Some (EvFrontendError (fe_name (frontend Sample.start))
                "could not convert string to float: b'junk'")
    ∧ exit_status
        (main (H:=Sample.lib)
           (Sample.machine Sample.laptop_only (Ok ("junk" ++ Sample.nl)) (Ok tt))
           Sample.args_interactive Sample.start).2
      ≠ 0%Z.
Proof.
  apply (proj2 (turnOnBacklight_suppresses (H:=Sample.lib)
                  (Sample.machine Sample.laptop_only
                     (Ok ("junk" ++ Sample.nl)) (Ok tt))
                  Sample.start)
           Sample.args_interactive Sample.start Sample.laptop_only
           (mkSetup (Some Sample.r1920) None None) ["xrandr"]).
  - reflexivity.
  - reflexivity.
  - reflexivity.
  - reflexivity.
  - exists ("junk" ++ Sample.nl). split; reflexivity.
Defined.

(** ** Exit status *)

Section ScriptFacts.
Context `{PyLib}.
Variable w : World.

(** Once the command line is parsed, the script is the run on the parsed
    arguments; a [SystemExit] of argparse goes past the handler. *)
Lemma script_parsed cmdArgs st :
  script w (Parsed cmdArgs) st = main w cmdArgs st.
Proof. done. Qed.

Lemma script_body_parsed cmdArgs st :
  script_body w (Parsed cmdArgs) st = main_body w cmdArgs st.
Proof. done. Qed.

Lemma script_parser_exit code st :
  script w (ParserExit code) st = (st, SysExit code).
Proof. done. Qed.

Lemma main_exit_zero cmdArgs st :
  exit_status (main w cmdArgs st).2 = 0%Z
  ↔ ∃ st', main w cmdArgs st = (st', Val tt).
Proof.
  split.
  - destruct (main w cmdArgs st) as [st' [[]|e|c]] eqn:Hmain; simpl.
    + intros _. by exists st'.
    + done.
    + intros Hc. exfalso. subst c.
      unfold main, try_except in Hmain.
      destruct (main_body w cmdArgs st) as [st1 [a|e|c]] eqn:Hbody.
      * done.
      * unfold report in Hmain. run_M. done.
      * injection Hmain as Hst Hc. subst st1 c.
        discriminate (proj2 (main_body_tame w _ _ _ _ Hbody) 0%Z eq_refl).
  - intros [st' ->]. done.
Qed.

Lemma main_cancelled cmdArgs st fe home config situation extRes :
  w_getFrontend w (arg_frontend cmdArgs) = Ok fe →
  w_home w = Some home →
  loadConfigFile (w_fs w) (home ++ "/.dsl.conf") = Ok config →
  situationByConfig w config = Ok situation →
  internal_only cmdArgs = false →
  externalResolutions situation = Some extRes →
  external_only cmdArgs = false →
  rel_position cmdArgs = None →
  fe_setup fe situation = Ok None →
  main w cmdArgs st
  = (mkState fe (trace st ++ [EvFrontendSetup (fe_name fe)]), SysExit 1).
Proof.
  intros Hfe Hhome Hconf Hsit Hi Hext He Hpos Hset.
  apply main_passes; [|done].
  unfold main_body, prepare, construct_setup. run_M.
  rewrite Hfe. simpl. rewrite Hhome. simpl. rewrite Hconf. simpl.
  rewrite Hsit. simpl. rewrite Hi, Hext, He, Hpos. simpl.
  rewrite Hset. simpl. done.
Qed.

End ScriptFacts.

(** C7, as amended. The process leaves with status 0 when the run
    succeeds, and otherwise only when argparse itself leaves with 0.
    When the interactive frontend returns no setup, it leaves with status
    1, and the only thing that happened since the start is the question
    to the frontend: the display tool was not called and no error was
    reported. Every [Exception] that leaves the body is first shown
    through the error channel of the active frontend (the one selected
    from the command line, the fallback if the selection itself raised),
    and then raised again, which gives a non-zero status. The
    [SystemExit] argparse raises on the command line is not caught: the
    process leaves with argparse's status and nothing else happens. *)
Theorem exit_codes `{PyLib} (w : World) (r : parse_result) (st : state) :
  (exit_status (script w r st).2 = 0%Z
   ↔ (∃ st', script w r st = (st', Val tt)) ∨ r = ParserExit 0)
  ∧ (∀ cmdArgs fe home config situation extRes,
       r = Parsed cmdArgs →
       w_getFrontend w (arg_frontend cmdArgs) = Ok fe →
       w_home w = Some home →
       loadConfigFile (w_fs w) (home ++ "/.dsl.conf") = Ok config →
       situationByConfig w config = Ok situation →
       internal_only cmdArgs = false →
       externalResolutions situation = Some extRes →
       external_only cmdArgs = false →
       rel_position cmdArgs = None →
       fe_setup fe situation = Ok None →
       script w r st
       = (mkState fe (trace st ++ [EvFrontendSetup (fe_name fe)]), SysExit 1)
       ∧ exit_status (script w r st).2 = 1%Z)
  ∧ (∀ e st', script_body w r st = (st', Exc e) →
       script w r st
       = (mkState (frontend st')
            (trace st'
             ++ [EvFrontendError (fe_name (frontend st')) (exn_str e)]),
          Exc e)
       ∧ exit_status (script w r st).2 ≠ 0%Z
       ∧ ∃ cmdArgs, r = Parsed cmdArgs
           ∧ frontend st'
             = match w_getFrontend w (arg_frontend cmdArgs) with
               | Ok fe => fe
               | Raise _ => frontend st
               end)
  ∧ (∀ code, r = ParserExit code →
       script w r st = (st, SysExit code)
       ∧ exit_status (script w r st).2 = code).
Proof.
  split; [|split; [|split]].
  - destruct r as [cmdArgs|code].
    + rewrite script_parsed, main_exit_zero. split; [by left|].
      by intros [?|?].
    + rewrite script_parser_exit. simpl. split.
      * intros ->. by right.
      * intros [[st' ?]|[= ->]]; done.
  - intros cmdArgs fe home config situation extRes -> Hfe Hhome Hconf Hsit
      Hi Hext He Hpos Hset.
    rewrite script_parsed.
    by rewrite (main_cancelled w cmdArgs st fe home config situation extRes).
  - intros e st' Hbody. destruct r as [cmdArgs|code]; [|done].
    rewrite script_body_parsed in Hbody. rewrite script_parsed.
    rewrite (main_reports w _ _ _ _ Hbody).
    split; [done|]. split; [done|]. exists cmdArgs. split; [done|].
    apply (main_body_tame w _ _ _ _ Hbody).
  - intros code ->. by rewrite script_parser_exit.
Qed.

Lemma exit_codes_witness :
  script (H:=Sample.lib)
    (Sample.machine Sample.docked (Ok "0.000000") (Ok tt))
    (Parsed Sample.args_interactive) Sample.start
  = (mkState Sample.cli [EvFrontendSetup "cli"], SysExit 1)
  ∧ exit_status
      (script (H:=Sample.lib)
         (Sample.machine Sample.docked (Ok "0.000000") (Ok tt))
         (Parsed Sample.args_interactive) Sample.start).2
    = 1%Z.
Proof.
  apply (proj1 (proj2 (exit_codes (H:=Sample.lib)
                  (Sample.machine Sample.docked (Ok "0.000000") (Ok tt))
                  (Parsed Sample.args_interactive) Sample.start))
           Sample.args_interactive Sample.cli "/home/user"
           {["internalConnector" := ["eDP1"];
             "externalConnectors" := ["HDMI1"; "VGA1"]]}
           Sample.docked [Sample.r1280; Sample.r1920]).
  - reflexivity.
  - reflexivity.
  - reflexivity.
  - vm_compute. reflexivity.
  - reflexivity.
  - reflexivity.
  - reflexivity.
  - reflexivity.
  - reflexivity.
  - reflexivity.
Defined.

(** C7, as stated, fails for a command line argparse rejects, such as
    [-r beside]: [parse_args] raises [SystemExit(2)] inside the [try],
    which [except Exception] does not catch. The process leaves with
    status 2, which is neither the success nor the cancellation, and
    nothing has been shown through the frontend. After [--help] it leaves
    with status 0 although nothing was set up. *)
Lemma script_rejected_command_line :
  script (H:=Sample.lib)
    (Sample.machine Sample.docked (Ok "0.000000") (Ok tt))
    SampleEdges.rejected Sample.start
  = (Sample.start, SysExit 2)
  ∧ exit_status
      (script (H:=Sample.lib)
         (Sample.machine Sample.docked (Ok "0.000000") (Ok tt))
         SampleEdges.rejected Sample.start).2
    = 2%Z
  ∧ trace
      (script (H:=Sample.lib)
         (Sample.machine Sample.docked (Ok "0.000000") (Ok tt))
         SampleEdges.rejected Sample.start).1
    = []
  ∧ script (H:=Sample.lib)
      (Sample.machine Sample.docked (Ok "0.000000") (Ok tt))
      SampleEdges.help Sample.start
    = (Sample.start, SysExit 0).
Proof. repeat split. Qed.

(** ** Sample runs *)

(** Nothing in the configuration, a laptop panel with two modes and no
    external screen: the panel's preferred mode, nothing external, and the
    backlight is looked after. *)
Example run_laptop_only :
  run (H:=Sample.lib)
    (Sample.machine Sample.laptop_only (Ok ("0.000000" ++ Sample.nl)) (Ok tt))
    Sample.cli Sample.args_internal
  = (mkState Sample.cli
       [EvPrintCall "Call that will be made:" ["xrandr"];
        EvCheckCall ["xrandr"];
        EvCheckOutput ["xbacklight"; "-get"];
        EvCheckCall ["xbacklight"; "-set"; "100"]],
     Val tt).
Proof. reflexivity. Qed.

(** [--relative-position right] with an external screen: both preferred
    modes, the external one placed to the right. *)
Example construct_setup_right :
  construct_setup (mkArgs None (Some "right") false false)
    (mkSituation [Sample.r1920] (Some [Sample.r1920; Sample.r1280])
       [Sample.r1920])
    Sample.start
  = (Sample.start,
     Val (mkSetup (Some Sample.r1920) (Some Sample.r1920) (Some RIGHT))).
Proof. reflexivity. Qed.

(** A position that names no member trips the assertion of line 124. *)
Example construct_setup_unknown_position :
  construct_setup (mkArgs None (Some "beside") false false) Sample.docked
    Sample.start
  = (Sample.start, Exc (mkExn AssertionError "CLI argument is ambigue")).
Proof. reflexivity. Qed.

(** Two internal connectors in the configuration end the run with the
    configuration error, shown by the frontend. *)
Example run_two_internal_connectors :
  run (H:=Sample.lib)
    (mkWorld (Some "/root")
       (λ _, Some ["internalConnector = LVDS1 eDP1" ++ Sample.nl])
       (λ _, Ok Sample.cli) (λ _ _, Ok Sample.docked) (λ _ _, Ok ["xrandr"])
       (λ _, Ok tt) (λ _, Ok "100.000000"))
    Sample.cli Sample.args_interactive
  = (mkState Sample.cli
       [EvFrontendError "cli" "You must specify exactly one internal connector."],
     Exc config_error).
Proof. reflexivity. Qed.

(** * Further properties of the code *)

(** ** Config Loader: failures *)

Section ConfigLoaderFailures.
Context `{PyLib}.

Lemma not_line_ok line :
  ¬ line_ok line ↔ is_skipped line = false ∧ entry_of line = None.
Proof.
  split.
  - intros Hnot. split.
    + destruct (is_skipped line) eqn:Hs; [|done]. destruct Hnot. by left.
    + destruct (entry_of line) as [[k v]|] eqn:He; [|done].
      destruct Hnot. right. exists k, v. by apply entry_of_is_entry.
  - intros [Hs He] [Hs'|(k & v & Hk%entry_of_is_entry)]; congruence.
Qed.

Lemma line_ok_or_not line : line_ok line ∨ ¬ line_ok line.
Proof.
  destruct (is_skipped line) eqn:Hs; [left; by left|].
  destruct (entry_of line) as [[k v]|] eqn:He.
  - left. right. exists k, v. by apply entry_of_is_entry.
  - right. by apply not_line_ok.
Qed.

(** Either every line is good, or there is a first one that is not. *)
Lemma first_bad_line f :
  Forall line_ok f
  ∨ ∃ i line, f !! i = Some line ∧ Forall line_ok (take i f) ∧ ¬ line_ok line.
Proof.
  induction f as [|l f IH]; [by left|].
  destruct (line_ok_or_not l) as [Hl|Hl].
  - destruct IH as [Hf|(i & line & Hi & Hbefore & Hbad)].
    + left. by constructor.
    + right. exists (S i), line. split; [done|]. split; [|done].
      simpl. by constructor.
  - right. exists 0, l. split; [done|]. split; [|done]. constructor.
Qed.

Lemma read_lines_Raise f linenr (result : Config) e :
  read_lines f linenr result = Raise e ↔
  ∃ i line, f !! i = Some line ∧ Forall line_ok (take i f)
    ∧ ¬ line_ok line ∧ e = parse_error (linenr + S i).
Proof.
  split.
  - intros Hrun. destruct (first_bad_line f) as [Hf|(i & line & Hi & Hbefore & Hbad)].
    + destruct (read_lines_ok f linenr result Hf) as (config & Hok & _). congruence.
    + exists i, line. repeat (split; [done|]).
      apply not_line_ok in Hbad as Hbad'. destruct Hbad' as [Hs He].
      rewrite (read_lines_first_failure f i line linenr result) in Hrun by done.
      congruence.
  - intros (i & line & Hi & Hbefore & [Hs He]%not_line_ok & ->).
    by apply (read_lines_first_failure f i line).
Qed.

Lemma read_lines_Ok f linenr (result config : Config) :
  read_lines f linenr result = Ok config → Forall line_ok f.
Proof.
  intros Hrun. destruct (first_bad_line f) as [Hf|(i & line & Hi & Hbefore & Hbad)]; [done|].
  assert (read_lines f linenr result = Raise (parse_error (linenr + S i))) as Hr.
  { rewrite read_lines_Raise. by exists i, line. }
  congruence.
Qed.

End ConfigLoaderFailures.

(** Of a file that was read, giving the lines [f]. *)
Lemma loadConfigFile_Raise `{PyLib}
    (fs : string → option (list string)) (filename : string) (e : exn) :
  loadConfigFile fs filename = Raise e ↔
  ∃ f i line, fs filename = Some f ∧ f !! i = Some line
    ∧ Forall line_ok (take i f) ∧ ¬ line_ok line
    ∧ e = parse_error (S i).
Proof.
  unfold loadConfigFile. destruct (fs filename) as [f|].
  - rewrite read_lines_Raise. split.
    + intros (i & line & Hrest). by exists f, i, line.
    + intros (f' & i & line & [= <-] & Hrest). by exists i, line.
  - split; [done|]. by intros (f & i & line & Hfs & _).
Qed.

(** X1. The parse error always names the first line that cannot be
    parsed: for a file read as the lines [f], [loadConfigFile] raises the
    error naming line [n] exactly when line [n] is neither blank, nor a
    comment, nor well-formed, and every line before it is one of these.
    In particular no parse error comes from a file of good lines. *)
Theorem loadConfigFile_raises_iff `{PyLib}
    (fs : string → option (list string)) (filename : string) (n : nat) :
  loadConfigFile fs filename = Raise (parse_error n) ↔
  ∃ f i line, fs filename = Some f ∧ f !! i = Some line
    ∧ Forall line_ok (take i f) ∧ ¬ line_ok line
    ∧ n = S i.
Proof.
  rewrite loadConfigFile_Raise. split.
  - intros (f & i & line & Hfs & Hi & Hbefore & Hbad & Hn%parse_error_inj).
    by exists f, i, line.
  - intros (f & i & line & Hfs & Hi & Hbefore & Hbad & ->).
    by exists f, i, line.
Qed.

(** X2. A line that has an ['='] but whose value [shlex.split] rejects
    (a quoting mistake) is reported like a line without ['=']: when the
    lines before it are good, [loadConfigFile] raises the parse error
    naming that line's number. *)
Theorem loadConfigFile_bad_quoting `{PyLib}
    (fs : string → option (list string)) (filename : string)
    (f : list string) (i : nat) (line before after : string) :
  fs filename = Some f →
  f !! i = Some line →
  Forall line_ok (take i f) →
  is_skipped line = false →
  PyStr.strip line = before ++ "=" ++ after →
  PyStr.mem "=" before = false →
  shlex_split after = None →
  loadConfigFile fs filename = Raise (parse_error (S i)).
Proof.
  intros Hfs Hi Hbefore Hs Hline Hmem Hsplit.
  rewrite loadConfigFile_Raise. exists f, i, line.
  repeat (split; [done|]). split; [|done].
  apply not_line_ok. split; [done|].
  destruct (entry_of line) as [[k v]|] eqn:He; [|done].
  apply entry_of_is_entry in He as (before' & after' & Hline' & Hmem' & _ & Hsplit').
  rewrite Hline in Hline'. rewrite !append_cons, !append_nil in Hline'.
  destruct (index_app_first "=" before after Hmem) as (Hi1 & _ & Hd1).
  destruct (index_app_first "=" before' after' Hmem') as (Hi2 & _ & Hd2).
  rewrite Hline' in Hi1, Hd1. rewrite Hi1 in Hi2. injection Hi2 as Hlen.
  rewrite Hlen, Hd2 in Hd1. congruence.
Qed.

Lemma loadConfigFile_bad_quoting_witness :
  loadConfigFile (H:=SampleQuoting.lib)
    (λ _, Some SampleQuoting.quoted_conf) "/home/user/.dsl.conf"
  = Raise (parse_error 2).
Proof.
  apply (loadConfigFile_bad_quoting (H:=SampleQuoting.lib)
           (λ _, Some SampleQuoting.quoted_conf) "/home/user/.dsl.conf"
           SampleQuoting.quoted_conf 1 SampleQuoting.quoted_line
           "externalConnectors "
           (String " " (String SampleQuoting.dq "HDMI 1"))).
  - reflexivity.
  - reflexivity.
  - simpl. each_line. left. reflexivity.
  - reflexivity.
  - reflexivity.
  - reflexivity.
  - reflexivity.
Defined.

(** ** Config Loader: what the result depends on *)

Section ConfigLoaderShape.
Context `{PyLib}.

Lemma read_lines_filter f linenr linenr' (result config : Config) :
  read_lines f linenr result = Ok config ↔
  read_lines (filter (λ line, is_skipped line = false) f) linenr' result
  = Ok config.
Proof.
  revert linenr linenr' result.
  induction f as [|l f IH]; intros linenr linenr' result; [done|].
  destruct (is_skipped l) eqn:Hs.
  - rewrite filter_cons_False by congruence.
    rewrite read_lines_skip by done. apply IH.
  - rewrite filter_cons_True by done.
    destruct (entry_of l) as [[k v]|] eqn:He.
    + rewrite !(read_lines_store l _ _ _ k v) by done. apply IH.
    + rewrite !read_lines_fail by done. done.
Qed.

Lemma last_binding_app f1 f2 key :
  last_binding (f1 ++ f2) key
  = match last_binding f2 key with
    | Some tokens => Some tokens
    | None => last_binding f1 key
    end.
Proof.
  induction f1 as [|l f1 IH]; simpl.
  - by destruct (last_binding f2 key).
  - rewrite IH. by destruct (last_binding f2 key).
Qed.

End ConfigLoaderShape.

(** X3. Blank lines and comment lines have no influence on the mapping:
    a file loads to a mapping exactly when the file without those lines
    loads to that same mapping. *)
Theorem loadConfigFile_ignores_skipped `{PyLib}
    (fs fs' : string → option (list string)) (filename filename' : string)
    (f : list string) (config : Config) :
  fs filename = Some f →
  fs' filename' = Some (filter (λ line, is_skipped line = false) f) →
  loadConfigFile fs filename = Ok config ↔
  loadConfigFile fs' filename' = Ok config.
Proof.
  intros Hfs Hfs'. unfold loadConfigFile. rewrite Hfs, Hfs'.
  apply read_lines_filter.
Qed.

Lemma loadConfigFile_ignores_skipped_witness :
  loadConfigFile (H:=Sample.lib) Sample.fs Sample.conf_path
  = Ok {["internalConnector" := ["eDP1"];
         "externalConnectors" := ["HDMI1"; "VGA1"]]}
  ↔ loadConfigFile (H:=Sample.lib)
      (λ _, Some (filter (λ line, is_skipped line = false) Sample.dsl_conf))
      "/tmp/stripped.conf"
    = Ok {["internalConnector" := ["eDP1"];
           "externalConnectors" := ["HDMI1"; "VGA1"]]}.
Proof.
  apply (loadConfigFile_ignores_skipped (H:=Sample.lib) Sample.fs _
           Sample.conf_path "/tmp/stripped.conf" Sample.dsl_conf);
    reflexivity.
Defined.

(** The lines of one file followed by the lines of another. *)
Lemma loadConfigFile_lines_append `{PyLib}
    (fs : string → option (list string)) (name1 name2 name12 : string)
    (f1 f2 : list string) (config1 config2 : Config) :
  fs name1 = Some f1 →
  fs name2 = Some f2 →
  fs name12 = Some (f1 ++ f2)%list →
  loadConfigFile fs name1 = Ok config1 →
  loadConfigFile fs name2 = Ok config2 →
  loadConfigFile fs name12 = Ok (config2 ∪ config1).
Proof.
  unfold loadConfigFile. intros -> -> -> Hload1 Hload2.
  pose proof (read_lines_Ok _ _ _ _ Hload1) as Hok1.
  pose proof (read_lines_Ok _ _ _ _ Hload2) as Hok2.
  destruct (read_lines_ok f1 0 ∅ Hok1) as (c1 & Hc1 & Hl1).
  destruct (read_lines_ok f2 0 ∅ Hok2) as (c2 & Hc2 & Hl2).
  destruct (read_lines_ok (f1 ++ f2) 0 ∅) as (c & -> & Hl).
  { by apply Forall_app. }
  rewrite Hc1 in Hload1. rewrite Hc2 in Hload2.
  injection Hload1 as ->. injection Hload2 as ->.
  f_equal. apply map_eq. intros key.
  rewrite lookup_union, Hl, Hl1, Hl2, last_binding_app.
  destruct (last_binding f2 key), (last_binding f1 key); done.
Qed.

Lemma file_lines_cons c rest :
  file_lines (String c rest)
  = if decide (c = newline) then String c EmptyString :: file_lines rest
    else
      match file_lines rest with
      | [] => [String c EmptyString]
      | line :: lines => String c line :: lines
      end.
Proof. reflexivity. Qed.

Lemma file_lines_nonempty c rest : file_lines (String c rest) ≠ [].
Proof.
  rewrite file_lines_cons. destruct (decide (c = newline)); [done|].
  by destruct (file_lines rest).
Qed.

(** A text that ends with a line end keeps its lines when more text
    follows: nothing of the second text merges into its last line. *)
Lemma file_lines_append (content1 content2 : string) :
  ends_with_newline content1 = true →
  file_lines (content1 ++ content2)
  = (file_lines content1 ++ file_lines content2)%list.
Proof.
  induction content1 as [|c rest IH]; [done|].
  intros Hends. rewrite append_cons, !file_lines_cons.
  destruct rest as [|d rest'].
  - simpl in Hends. apply bool_decide_eq_true in Hends.
    destruct (decide (c = newline)); [|done]. by rewrite append_nil.
  - rewrite IH by exact Hends.
    destruct (decide (c = newline)); [done|].
    pose proof (file_lines_nonempty d rest') as Hne.
    by destruct (file_lines (String d rest')).
Qed.

(** X4. Appending a second file to a first one that ends with a line end
    gives the union of their mappings in which the second file wins:
    where both load, the concatenated text loads to the second mapping
    completed by the first. Without the final line end the last line of
    the first file and the first line of the second become one line. *)
Theorem loadConfigFile_concatenation `{PyLib}
    (fs : string → option (list string)) (name1 name2 name12 : string)
    (content1 content2 : string) (config1 config2 : Config) :
  fs name1 = Some (file_lines content1) →
  fs name2 = Some (file_lines content2) →
  fs name12 = Some (file_lines (content1 ++ content2)) →
  ends_with_newline content1 = true →
  loadConfigFile fs name1 = Ok config1 →
  loadConfigFile fs name2 = Ok config2 →
  loadConfigFile fs name12 = Ok (config2 ∪ config1).
Proof.
  intros Hfs1 Hfs2 Hfs12 Hends Hload1 Hload2.
  rewrite (file_lines_append _ _ Hends) in Hfs12.
  by apply (loadConfigFile_lines_append fs name1 name2 name12
              (file_lines content1) (file_lines content2)).
Qed.

Lemma loadConfigFile_concatenation_witness :
  loadConfigFile (H:=Sample.lib)
    (λ path,
       if decide (path = "/etc/dsl.conf")
       then Some (file_lines ("a = 1" ++ Sample.nl ++ "b = 3" ++ Sample.nl))
       else if decide (path = "/home/user/.dsl.conf")
       then Some (file_lines "a = 9")
       else Some (file_lines (("a = 1" ++ Sample.nl ++ "b = 3" ++ Sample.nl)
                              ++ "a = 9")))
    "/tmp/both.conf"
  = Ok ({["a" := ["9"]]} ∪ {["a" := ["1"]; "b" := ["3"]]}).
Proof.
  apply (loadConfigFile_concatenation (H:=Sample.lib) _
           "/etc/dsl.conf" "/home/user/.dsl.conf" "/tmp/both.conf"
           ("a = 1" ++ Sample.nl ++ "b = 3" ++ Sample.nl) "a = 9").
  - reflexivity.
  - reflexivity.
  - reflexivity.
  - reflexivity.
  - vm_compute. reflexivity.
  - vm_compute. reflexivity.
Defined.

(** Without the line end at the end of the first text, two lines merge. *)
Example file_lines_merge :
  file_lines ("a = 1" ++ ("b = 2" ++ Sample.nl)) = ["a = 1b = 2" ++ Sample.nl]
  ∧ (file_lines "a = 1" ++ file_lines ("b = 2" ++ Sample.nl))%list
    = ["a = 1"; "b = 2" ++ Sample.nl].
Proof. split; reflexivity. Qed.

(** ** Config Loader: the keys it stores *)

Section StripFacts.
Import PyStr.
Variable sp : ascii → bool.

Lemma append_assoc (a b c : string) : (a ++ b) ++ c = a ++ (b ++ c).
Proof.
  induction a as [|d a IH]; [by rewrite !append_nil|].
  rewrite !append_cons. by rewrite IH.
Qed.

Lemma rev_app_append (s acc : string) :
  String.rev_app s acc = String.rev s ++ acc.
Proof.
  unfold String.rev. revert acc.
  induction s as [|d s IH]; intros acc; simpl; [by rewrite append_nil|].
  rewrite (IH (String d acc)), (IH (String d "")).
  rewrite append_assoc. by rewrite append_cons, append_nil.
Qed.

Lemma rev_rev_app (s acc : string) :
  String.rev (String.rev_app s acc) = String.rev_app acc s.
Proof.
  revert acc. induction s as [|d s IH]; intros acc; simpl; [done|].
  by rewrite IH.
Qed.

Lemma rev_involutive (s : string) : String.rev (String.rev s) = s.
Proof. unfold String.rev at 2. by rewrite rev_rev_app. Qed.

Lemma rev_app_of_append (a b acc : string) :
  String.rev_app (a ++ b) acc = String.rev_app b (String.rev_app a acc).
Proof.
  revert acc. induction a as [|d a IH]; intros acc.
  - by rewrite append_nil.
  - rewrite append_cons. simpl. by rewrite IH.
Qed.

Lemma rev_append (a b : string) :
  String.rev (a ++ b) = String.rev b ++ String.rev a.
Proof.
  unfold String.rev at 1. rewrite rev_app_of_append.
  by rewrite rev_app_append.
Qed.

Lemma mem_rev_app c (s acc : string) :
  mem c s = false → mem c acc = false →
  mem c (String.rev_app s acc) = false.
Proof.
  revert acc. induction s as [|d s IH]; intros acc; simpl; [done|].
  destruct (decide (d = c)) as [|Hne]; [done|]. intros Hs Hacc.
  apply IH; [done|]. simpl. by destruct (decide (d = c)).
Qed.

Lemma mem_lstrip_with c (s : string) :
  mem c s = false → mem c (lstrip_with sp s) = false.
Proof.
  induction s as [|d s IH]; simpl; [done|].
  destruct (decide (d = c)) as [|Hne]; [done|]. intros Hs.
  destruct (sp d); [by apply IH|].
  simpl. by destruct (decide (d = c)).
Qed.

Lemma mem_rstrip_with c (s : string) :
  mem c s = false → mem c (rstrip_with sp s) = false.
Proof.
  intros Hs. unfold rstrip_with, String.rev.
  apply mem_rev_app; [|done]. apply mem_lstrip_with.
  by apply mem_rev_app.
Qed.

Lemma lstrip_with_idemp (s : string) :
  lstrip_with sp (lstrip_with sp s) = lstrip_with sp s.
Proof.
  induction s as [|d s IH]; simpl; [done|].
  destruct (sp d) eqn:Hd; [done|]. simpl. by rewrite Hd.
Qed.

Lemma lstrip_with_length (s : string) :
  (String.length (lstrip_with sp s) <= String.length s)%nat.
Proof.
  induction s as [|d s IH]; simpl; [done|].
  destruct (sp d); simpl; lia.
Qed.

(** What [lstrip_with] removes is a prefix. *)
Lemma lstrip_with_split (s : string) :
  ∃ blanks, s = blanks ++ lstrip_with sp s.
Proof.
  induction s as [|d s [blanks IH]]; simpl.
  - by exists "".
  - destruct (sp d).
    + exists (String d blanks). rewrite append_cons. by rewrite <- IH.
    + by exists "".
Qed.

(** A string that [lstrip_with] leaves alone keeps that property when
    something is cut off its end. *)
Lemma lstrip_with_fixed_prefix (t rest : string) :
  lstrip_with sp (t ++ rest) = t ++ rest →
  t = "" ∨ lstrip_with sp t = t.
Proof.
  destruct t as [|c t]; [by left|]. intros Heq. right.
  rewrite append_cons in Heq. simpl in *.
  destruct (sp c) eqn:Hc; [|done].
  pose proof (lstrip_with_length (t ++ rest)) as Hlen.
  rewrite Heq in Hlen. simpl in Hlen. lia.
Qed.

Lemma strip_with_idemp (s : string) :
  rstrip_with sp (lstrip_with sp (rstrip_with sp (lstrip_with sp s)))
  = rstrip_with sp (lstrip_with sp s).
Proof.
  set (u := lstrip_with sp s).
  assert (lstrip_with sp u = u) as Hu by apply lstrip_with_idemp.
  unfold rstrip_with at 2 3.
  destruct (lstrip_with_split (String.rev u)) as [blanks Hsplit].
  set (y := lstrip_with sp (String.rev u)) in *.
  assert (u = String.rev y ++ String.rev blanks) as Hrev.
  { rewrite <- rev_append, <- Hsplit. by rewrite rev_involutive. }
  assert (lstrip_with sp (String.rev y) = String.rev y) as Hfix.
  { rewrite Hrev in Hu.
    destruct (lstrip_with_fixed_prefix _ _ Hu) as [-> | ->]; done. }
  rewrite Hfix. unfold rstrip_with. rewrite rev_involutive.
  unfold y. by rewrite lstrip_with_idemp.
Qed.

End StripFacts.

Lemma strip_idemp (s : string) : PyStr.strip (PyStr.strip s) = PyStr.strip s.
Proof. apply strip_with_idemp. Qed.

Lemma mem_strip c (s : string) :
  PyStr.mem c s = false → PyStr.mem c (PyStr.strip s) = false.
Proof. intros Hs. by apply mem_rstrip_with, mem_lstrip_with. Qed.

(** X5. Every key of a mapping [loadConfigFile] returns is trimmed and
    free of ['=']: trimming it again changes nothing, so an option is
    found under its bare name however it was spaced in the file. *)
Theorem loadConfigFile_keys_trimmed `{PyLib}
    (fs : string → option (list string)) (filename : string)
    (config : Config) (key : string) :
  loadConfigFile fs filename = Ok config →
  key ∈ dom config →
  PyStr.strip key = key ∧ PyStr.mem "=" key = false.
Proof.
  unfold loadConfigFile. destruct (fs filename) as [f|].
  - intros Hload Hkey.
    pose proof (read_lines_Ok _ _ _ _ Hload) as Hok.
    destruct (read_lines_ok f 0 ∅ Hok) as (c & Hc & Hl).
    rewrite Hc in Hload. injection Hload as ->.
    apply elem_of_dom in Hkey as [tokens Hkey]. rewrite Hl in Hkey.
    destruct (last_binding f key) as [t|] eqn:Hlast;
      [|by rewrite lookup_empty in Hkey].
    destruct (last_binding_elem _ _ _ Hlast) as (line & _ & _ & He).
    apply entry_of_is_entry in He as (before & after & _ & Hmem & -> & _).
    split; [apply strip_idemp|by apply mem_strip].
  - intros [= <-] Hkey. by rewrite dom_empty_L in Hkey.
Qed.

Lemma loadConfigFile_keys_trimmed_witness :
  PyStr.strip "internalConnector" = "internalConnector"
  ∧ PyStr.mem "=" "internalConnector" = false.
Proof.
  apply (loadConfigFile_keys_trimmed (H:=Sample.lib) Sample.fs Sample.conf_path
           {["internalConnector" := ["eDP1"];
             "externalConnectors" := ["HDMI1"; "VGA1"]]}).
  - vm_compute. reflexivity.
  - apply elem_of_dom. eexists. reflexivity.
Defined.

(** ** Setup Builder: the position named on the command line *)

Lemma position_choice pos :
  pos ∈ rel_position_choices ↔
  ∃ name relPos, (name, relPos) ∈ RelativeScreenPosition_members
    ∧ pos = relPosFilter name.
Proof.
  unfold rel_position_choices. rewrite <- list_fmap_compose.
  rewrite list_elem_of_fmap. split.
  - intros ([name relPos] & -> & Hin). by exists name, relPos.
  - intros (name & relPos & Hin & ->). by exists (name, relPos).
Qed.

(** The lower-cased names are pairwise distinct: a choice selects the one
    member it names. *)
Lemma position_lookup name relPos :
  (name, relPos) ∈ RelativeScreenPosition_members →
  filter (λ relPosItem, relPosFilter relPosItem.1 = relPosFilter name)
    RelativeScreenPosition_members
  = [(name, relPos)].
Proof.
  unfold RelativeScreenPosition_members. intros Hin.
  repeat (apply elem_of_cons in Hin as [[= -> ->]|Hin]; [reflexivity|]).
  by apply elem_of_nil in Hin.
Qed.

Lemma position_lookup_none pos (members : list (string * RelativeScreenPosition)) :
  pos ∉ map relPosFilter (map fst members) →
  filter (λ relPosItem, relPosFilter relPosItem.1 = pos) members = [].
Proof.
  induction members as [|[name relPos] members IH]; [done|]. simpl.
  intros Hnot. apply not_elem_of_cons in Hnot as [Hne Hnot].
  rewrite filter_cons_False by (simpl; congruence). by apply IH.
Qed.

(** X6. With [--relative-position] naming a member other than [MIRROR], an
    external screen connected and neither [--internal-only] nor
    [--external-only] set, the setup takes the first internal and the
    first external resolution and the position named. *)
Theorem construct_setup_positioned
    (cmdArgs : CmdArgs) (situation : ScreenSituation) (st : state)
    (name : string) (relPos : RelativeScreenPosition)
    (i e : Resolution) (irest erest : list Resolution) :
  (name, relPos) ∈ RelativeScreenPosition_members →
  relPos ≠ MIRROR →
  rel_position cmdArgs = Some (relPosFilter name) →
  internal_only cmdArgs = false →
  external_only cmdArgs = false →
  internalResolutions situation = i :: irest →
  externalResolutions situation = Some (e :: erest) →
  construct_setup cmdArgs situation st
  = (st, Val (mkSetup (Some i) (Some e) (Some relPos))).
Proof.
  intros Hin Hne Hpos Hi He Hint Hext. unfold construct_setup.
  rewrite Hi, Hext, He, Hpos, (position_lookup name relPos Hin). simpl.
  destruct (decide (1 ≠ 1)) as [|_]; [done|]. run_M.
  destruct (decide (relPos = MIRROR)); [done|]. by rewrite Hint.
Qed.

Lemma construct_setup_positioned_witness :
  construct_setup (mkArgs None (Some "above") false false) Sample.docked
    Sample.start
  = (Sample.start,
     Val (mkSetup (Some Sample.r1920) (Some Sample.r1280) (Some ABOVE))).
Proof.
  apply (construct_setup_positioned (mkArgs None (Some "above") false false)
           Sample.docked Sample.start "ABOVE" ABOVE
           Sample.r1920 Sample.r1280 [Sample.r1366] [Sample.r1920]);
    try reflexivity.
  - unfold RelativeScreenPosition_members. set_solver.
  - discriminate.
Defined.

(** X7. The assertion of line 124 fails exactly for a position that is
    not among the choices argparse allows: for every allowed choice the
    lookup finds one member, and the construction goes on. *)
Theorem construct_setup_assertion
    (cmdArgs : CmdArgs) (situation : ScreenSituation) (st : state)
    (pos : string) (extRes : list Resolution) :
  rel_position cmdArgs = Some pos →
  internal_only cmdArgs = false →
  external_only cmdArgs = false →
  externalResolutions situation = Some extRes →
  construct_setup cmdArgs situation st
  = (st, Exc (mkExn AssertionError "CLI argument is ambigue"))
  ↔ pos ∉ rel_position_choices.
Proof.
  intros Hpos Hi He Hext. unfold construct_setup.
  rewrite Hi, Hext, He, Hpos.
  destruct (decide (pos ∈ rel_position_choices)) as [Hin|Hnot].
  - split; [|done]. intros Hrun. exfalso.
    apply position_choice in Hin as (name & relPos & Hin & ->).
    rewrite (position_lookup name relPos Hin) in Hrun. simpl in Hrun.
    destruct (decide (1 ≠ 1)) as [|_]; [done|]. run_M.
    destruct (decide (relPos = MIRROR)).
    + destruct (commonResolutions situation); simpl in Hrun; discriminate.
    + destruct (internalResolutions situation); simpl in Hrun; [discriminate|].
      destruct extRes; simpl in Hrun; discriminate.
  - split; [done|]. intros _.
    rewrite (position_lookup_none pos _ Hnot). simpl.
    by destruct (decide (0 ≠ 1)).
Qed.

Lemma construct_setup_assertion_witness :
  construct_setup (mkArgs None (Some "MIRROR") false false) Sample.docked
    Sample.start
  = (Sample.start, Exc (mkExn AssertionError "CLI argument is ambigue"))
  ↔ "MIRROR" ∉ rel_position_choices.
Proof.
  apply (construct_setup_assertion (mkArgs None (Some "MIRROR") false false)
           Sample.docked Sample.start "MIRROR" [Sample.r1280; Sample.r1920]);
    reflexivity.
Defined.

(** ** Setup Builder: with and without the user *)

(** What the construction can come to when a flag decides. *)
Lemma construct_setup_cases cmdArgs situation st st' (o : outcome ScreenSetup) :
  ¬ asks_user cmdArgs situation →
  construct_setup cmdArgs situation st = (st', o) →
  st' = st
  ∧ (o = Exc (mkExn IndexError "list index out of range")
     ∨ o = Exc (mkExn AssertionError "CLI argument is ambigue")
     ∨ (∃ i, o = Val (mkSetup (Some i) None None))
     ∨ (∃ e, o = Val (mkSetup None (Some e) None))
     ∨ (∃ i e relPos, o = Val (mkSetup (Some i) (Some e) (Some relPos)))).
Proof.
  intros Hnot. unfold construct_setup.
  assert (∀ l : list Resolution, ∀ st0,
            (i ← lift (first_item l); mret (mkSetup (Some i) None None)) st0
            = (st', o) →
            st' = st0
            ∧ (o = Exc (mkExn IndexError "list index out of range")
               ∨ o = Exc (mkExn AssertionError "CLI argument is ambigue")
               ∨ (∃ i, o = Val (mkSetup (Some i) None None))
               ∨ (∃ e, o = Val (mkSetup None (Some e) None))
               ∨ (∃ i e relPos,
                    o = Val (mkSetup (Some i) (Some e) (Some relPos)))))
    as Hinternal.
  { intros [|i l] st0; run_M; intros [= <- <-]; eauto 10. }
  destruct (internal_only cmdArgs) eqn:Hi; [apply Hinternal|].
  destruct (externalResolutions situation) as [extRes|] eqn:Hext;
    [|apply Hinternal].
  destruct (external_only cmdArgs) eqn:He.
  { destruct extRes; run_M; intros [= <- <-]; eauto 10. }
  destruct (rel_position cmdArgs) as [pos|] eqn:Hpos.
  - destruct (decide (List.length _ ≠ 1)); [run_M; intros [= <- <-]; eauto 10|].
    destruct (filter _ RelativeScreenPosition_members) as [|[name relPos] rest];
      [run_M; intros [= <- <-]; eauto 10|].
    run_M. destruct (decide (relPos = MIRROR)).
    + destruct (commonResolutions situation); simpl;
        intros [= <- <-]; eauto 10.
    + destruct (internalResolutions situation); simpl;
        [intros [= <- <-]; eauto 10|].
      destruct extRes; simpl; intros [= <- <-]; eauto 10.
  - destruct Hnot. unfold asks_user. rewrite Hext. eauto.
Qed.

(** X8. When no flag decides and an external screen is connected, the
    frontend is asked once and its answer is taken as it comes: a setup
    is returned unchanged, no setup leaves with [SystemExit(1)], and an
    exception of the frontend is passed on. *)
Theorem construct_setup_interactive
    (cmdArgs : CmdArgs) (situation : ScreenSituation) (st : state) :
  asks_user cmdArgs situation →
  ∃ o, construct_setup cmdArgs situation st
       = (mkState (frontend st)
            (trace st ++ [EvFrontendSetup (fe_name (frontend st))]), o)
    ∧ (∀ setup, fe_setup (frontend st) situation = Ok (Some setup) →
         o = Val setup)
    ∧ (fe_setup (frontend st) situation = Ok None → o = SysExit 1)
    ∧ (∀ e, fe_setup (frontend st) situation = Raise e → o = Exc e).
Proof.
  intros (Hi & [extRes Hext] & He & Hpos). unfold construct_setup.
  rewrite Hi, Hext, He, Hpos. run_M.
  destruct (fe_setup (frontend st) situation) as [[setup|]|e]; simpl;
    eexists; (split; [done|]); repeat split; congruence.
Qed.

Lemma construct_setup_interactive_witness :
  ∃ o, construct_setup Sample.args_interactive Sample.docked Sample.start
       = (mkState Sample.cli [EvFrontendSetup "cli"], o)
    ∧ (∀ setup, fe_setup Sample.cli Sample.docked = Ok (Some setup) →
         o = Val setup)
    ∧ (fe_setup Sample.cli Sample.docked = Ok None → o = SysExit 1)
    ∧ (∀ e, fe_setup Sample.cli Sample.docked = Raise e → o = Exc e).
Proof.
  apply (construct_setup_interactive Sample.args_interactive Sample.docked
           Sample.start).
  repeat split; [by eexists].
Defined.

(** X9. When a flag decides, or no external screen is connected, the
    construction does nothing one could observe: the frontend is not
    asked, the trace and the global frontend stay as they are, and the
    run is not left through [SystemExit]. *)
Theorem construct_setup_unattended
    (cmdArgs : CmdArgs) (situation : ScreenSituation) (st st' : state)
    (o : outcome ScreenSetup) :
  ¬ asks_user cmdArgs situation →
  construct_setup cmdArgs situation st = (st', o) →
  st' = st ∧ ∀ code, o ≠ SysExit code.
Proof.
  intros Hnot Hrun.
  destruct (construct_setup_cases _ _ _ _ _ Hnot Hrun) as [-> Ho].
  split; [done|]. intros code ->.
  destruct Ho as [?|[?|[[? ?]|[[? ?]|(? & ? & ? & ?)]]]]; discriminate.
Qed.

Lemma construct_setup_unattended_witness :
  Sample.start = Sample.start
  ∧ ∀ code,
      Val (mkSetup None (Some Sample.r1280) None) ≠ SysExit (A:=ScreenSetup) code.
Proof.
  apply (construct_setup_unattended Sample.args_external Sample.docked
           Sample.start Sample.start).
  - intros (_ & _ & He & _). discriminate.
  - reflexivity.
Defined.

(** X10. A setup built without the user has at least one of its two
    resolutions set, and carries a position exactly when it has both. *)
Theorem construct_setup_shape
    (cmdArgs : CmdArgs) (situation : ScreenSituation) (st st' : state)
    (setup : ScreenSetup) :
  ¬ asks_user cmdArgs situation →
  construct_setup cmdArgs situation st = (st', Val setup) →
  (is_Some (intResolution setup) ∨ is_Some (extResolution setup))
  ∧ (is_Some (relPosition setup)
     ↔ is_Some (intResolution setup) ∧ is_Some (extResolution setup)).
Proof.
  intros Hnot Hrun.
  destruct (construct_setup_cases _ _ _ _ _ Hnot Hrun) as [_ Ho].
  destruct Ho as [?|[?|[[i [= ->]]|[[e [= ->]]|(i & e & p & [= ->])]]]];
    try discriminate; simpl.
  - split; [by left|]. split; [by intros [? ?]|by intros [_ [? ?]]].
  - split; [by right|]. split; [by intros [? ?]|by intros [[? ?] _]].
  - split; [by left|]. done.
Qed.

Lemma construct_setup_shape_witness :
  (is_Some (Some Sample.r1920) ∨ is_Some (Some Sample.r1920))
  ∧ (is_Some (Some MIRROR)
     ↔ is_Some (Some Sample.r1920) ∧ is_Some (Some Sample.r1920)).
Proof.
  apply (construct_setup_shape Sample.args_mirror Sample.docked
           Sample.start Sample.start
           (mkSetup (Some Sample.r1920) (Some Sample.r1920) (Some MIRROR))).
  - intros (_ & _ & _ & Hpos). discriminate.
  - reflexivity.
Defined.

(** X11. Built without the user, the construction fails in two ways
    only: by the [IndexError] of taking the first entry of an empty
    resolution list, or by the assertion on the position. *)
Theorem construct_setup_failures
    (cmdArgs : CmdArgs) (situation : ScreenSituation) (st st' : state)
    (e : exn) :
  ¬ asks_user cmdArgs situation →
  construct_setup cmdArgs situation st = (st', Exc e) →
  e = mkExn IndexError "list index out of range"
  ∨ e = mkExn AssertionError "CLI argument is ambigue".
Proof.
  intros Hnot Hrun.
  destruct (construct_setup_cases _ _ _ _ _ Hnot Hrun) as [_ Ho].
  destruct Ho as [[= ->]|[[= ->]|[[? ?]|[[? ?]|(? & ? & ? & ?)]]]];
    try discriminate; [by left|by right].
Qed.

Lemma construct_setup_failures_witness :
  mkExn IndexError "list index out of range"
  = mkExn IndexError "list index out of range"
  ∨ mkExn IndexError "list index out of range"
    = mkExn AssertionError "CLI argument is ambigue".
Proof.
  apply (construct_setup_failures Sample.args_external
           (mkSituation [Sample.r1920] (Some []) []) Sample.start Sample.start).
  - intros (_ & _ & He & _). discriminate.
  - reflexivity.
Defined.

(** ** What a run adds to the trace *)

Section Emits.
Variable P : event → Prop.

Lemma emits_silent {A} (m : M A) :
  (∀ st, ∃ o, m st = (st, o)) → emits P m.
Proof.
  intros Hm st st' o Hrun. destruct (Hm st) as [o' Ho'].
  rewrite Ho' in Hrun. injection Hrun as <- <-.
  exists []. by rewrite app_nil_r.
Qed.

Lemma emits_ret {A} (a : A) : emits P (mret a).
Proof. apply emits_silent. intros st. by eexists. Qed.

Lemma emits_raise {A} (e : exn) : emits P (raise (A:=A) e).
Proof. apply emits_silent. intros st. by eexists. Qed.

Lemma emits_sys_exit {A} code : emits P (sys_exit (A:=A) code).
Proof. apply emits_silent. intros st. by eexists. Qed.

Lemma emits_lift {A} (r : res A) : emits P (lift r).
Proof. destruct r; [apply emits_ret|apply emits_raise]. Qed.

Lemma emits_get_frontend : emits P get_frontend.
Proof. apply emits_silent. intros st. by eexists. Qed.

Lemma emits_set_frontend fe : emits P (set_frontend fe).
Proof. intros st st' o [= <- <-]. exists []. by rewrite app_nil_r. Qed.

Lemma emits_emit ev : P ev → emits P (emit ev).
Proof.
  intros Hev st st' o [= <- <-]. exists [ev]. split; [done|].
  by constructor.
Qed.

Lemma emits_bind {A B} (m : M A) (f : A → M B) :
  emits P m → (∀ a, emits P (f a)) → emits P (m ≫= f).
Proof.
  intros Hm Hf st st' o. unfold mbind, M_bind.
  destruct (m st) as [st1 [a|e|c]] eqn:Hrun;
    destruct (Hm _ _ _ Hrun) as (more & Htrace & Hmore).
  - intros Hrun'. destruct (Hf a _ _ _ Hrun') as (more' & Htrace' & Hmore').
    exists (more ++ more')%list. split.
    + by rewrite Htrace', Htrace, app_assoc.
    + by apply Forall_app.
  - intros [= <- <-]. by exists more.
  - intros [= <- <-]. by exists more.
Qed.

Lemma emits_try_except {A} (body : M A) (handler : exn → M A) :
  emits P body → (∀ e, emits P (handler e)) → emits P (try_except body handler).
Proof.
  intros Hb Hh st st' o. unfold try_except.
  destruct (body st) as [st1 [a|e|c]] eqn:Hrun;
    destruct (Hb _ _ _ Hrun) as (more & Htrace & Hmore).
  - intros [= <- <-]. by exists more.
  - intros Hrun'. destruct (Hh e _ _ _ Hrun') as (more' & Htrace' & Hmore').
    exists (more ++ more')%list. split.
    + by rewrite Htrace', Htrace, app_assoc.
    + by apply Forall_app.
  - intros [= <- <-]. by exists more.
Qed.

End Emits.

(** Works through a computation built from the operations above; [known]
    closes the goals about named parts, [event] those about one event. *)
Ltac emits_with known event :=
  repeat first
    [ known
    | apply emits_ret | apply emits_raise | apply emits_sys_exit
    | apply emits_lift | apply emits_get_frontend | apply emits_set_frontend
    | apply emits_emit; event
    | apply emits_bind; [|intros ?]
    | apply emits_try_except; [|intros ?]
    | match goal with
      | |- emits _ (match ?x with _ => _ end) => destruct x
      end ].

Section RunTrace.
Context `{PyLib}.
Variable w : World.

Lemma construct_setup_emits cmdArgs situation :
  emits is_question (construct_setup cmdArgs situation).
Proof.
  unfold construct_setup. emits_with fail ltac:(by eexists).
Qed.

Lemma prepare_emits cmdArgs : emits is_question (prepare w cmdArgs).
Proof.
  unfold prepare.
  emits_with ltac:(apply construct_setup_emits) ltac:(by eexists).
Qed.

Lemma turnOnBacklight_emits :
  emits (λ ev, ¬ is_error_report ev) (turnOnBacklight w).
Proof.
  unfold turnOnBacklight, check_output, check_call, float_of, print.
  emits_with fail ltac:(by intros (? & ? & ?)).
Qed.

Lemma main_body_emits cmdArgs :
  emits (λ ev, ¬ is_error_report ev) (main_body w cmdArgs).
Proof.
  unfold main_body, prepare, apply_setup, check_call, construct_setup.
  emits_with ltac:(apply turnOnBacklight_emits) ltac:(by intros (? & ? & ?)).
Qed.

(** The events of the backlight routine: the query, then perhaps the
    setting, then perhaps one printed message. *)
Lemma turnOnBacklight_trace st :
  ∃ more o,
    turnOnBacklight w st
    = (mkState (frontend st)
         (trace st ++ EvCheckOutput ["xbacklight"; "-get"] :: more), o)
    ∧ (more = []
       ∨ more = [EvCheckCall ["xbacklight"; "-set"; "100"]]
       ∨ (∃ text, more = [EvPrint text])
       ∨ (∃ text, more = [EvCheckCall ["xbacklight"; "-set"; "100"];
                          EvPrint text]))
    ∧ (o = Val tt ∨ ∃ e, o = Exc e).
Proof.
  unfold turnOnBacklight. run_M.
  destruct (w_check_output w ["xbacklight"; "-get"]) as [out|e]; simpl.
  - destruct (float (PyStr.strip_bytes out)) as [x|msg]; simpl.
    + destruct (is_zero x); simpl.
      * destruct (w_check_call w ["xbacklight"; "-set"; "100"]) as [[]|e];
          simpl; [|destruct (exn_cls e); simpl];
          rewrite <- ?app_assoc; simpl; eexists _, _;
          (split; [done|]); eauto 10.
      * eexists _, _. split; [done|]. eauto.
    + eexists _, _. split; [done|]. eauto.
  - destruct (exn_cls e); simpl; rewrite <- ?app_assoc; simpl;
      eexists _, _; (split; [done|]); eauto 10.
Qed.

End RunTrace.

(** X12. The backlight routine talks to [xbacklight] only, and in a fixed
    order: it queries once, then sets the brightness at most once, then
    prints at most one message; it returns or raises, and never leaves
    through [SystemExit] or changes the frontend. *)
Theorem turnOnBacklight_events `{PyLib} (w : World) (st : state) :
  ∃ more o,
    turnOnBacklight w st
    = (mkState (frontend st)
         (trace st ++ EvCheckOutput ["xbacklight"; "-get"] :: more), o)
    ∧ (more = []
       ∨ more = [EvCheckCall ["xbacklight"; "-set"; "100"]]
       ∨ (∃ text, more = [EvPrint text])
       ∨ (∃ text, more = [EvCheckCall ["xbacklight"; "-set"; "100"];
                          EvPrint text]))
    ∧ (o = Val tt ∨ ∃ e, o = Exc e).
Proof. apply turnOnBacklight_trace. Qed.

(** X13. The call of the display tool is announced before it is made:
    when [forXrandr] raises, nothing is printed or called; when it
    returns a call, the run prints that call and then makes it, whatever
    comes of it. *)
Theorem apply_setup_announces `{PyLib} (w : World)
    (situation : ScreenSituation) (setup : ScreenSetup) (st : state) :
  (∀ e, w_forXrandr w situation setup = Raise e →
     apply_setup w situation setup st = (st, Exc e))
  ∧ (∀ xrandrCall, w_forXrandr w situation setup = Ok xrandrCall →
       ∃ more o,
         apply_setup w situation setup st
         = (mkState (frontend st)
              (trace st
               ++ EvPrintCall "Call that will be made:" xrandrCall
                  :: EvCheckCall xrandrCall :: more), o)).
Proof.
  split.
  - intros e He. unfold apply_setup. run_M. by rewrite He.
  - intros xrandrCall Hx.
    destruct (w_check_call w xrandrCall) as [[]|e] eqn:Hcall.
    + rewrite (apply_setup_run w situation setup st xrandrCall Hx Hcall).
      destruct (extResolution setup).
      * exists [], (Val tt). done.
      * destruct (turnOnBacklight_trace w (applied st xrandrCall))
          as (more & o & -> & _).
        eexists _, o. unfold applied. simpl. rewrite <- app_assoc. done.
    + exists [], (Exc e). unfold apply_setup. run_M.
      rewrite Hx. simpl. rewrite Hcall. simpl. by rewrite <- app_assoc.
Qed.

Lemma apply_setup_announces_witness :
  ∃ more o,
    apply_setup (H:=Sample.lib)
      (Sample.machine Sample.docked (Ok "0.000000") (Ok tt))
      Sample.docked (mkSetup None (Some Sample.r1280) None) Sample.start
    = (mkState (frontend Sample.start)
         (trace Sample.start
          ++ EvPrintCall "Call that will be made:" ["xrandr"]
             :: EvCheckCall ["xrandr"] :: more), o).
Proof.
  apply (apply_setup_announces (H:=Sample.lib)
           (Sample.machine Sample.docked (Ok "0.000000") (Ok tt))
           Sample.docked (mkSetup None (Some Sample.r1280) None) Sample.start).
  reflexivity.
Defined.

(** X14. A failure of the display tool is fatal, unlike one of the
    brightness utility: when the call of [xrandr] raises, the backlight
    routine is not run even for a setup without external resolution, the
    error is shown by the frontend and the run ends with it. *)
Theorem xrandr_failure_is_fatal `{PyLib} (w : World) (cmdArgs : CmdArgs)
    (st st1 : state) (situation : ScreenSituation) (setup : ScreenSetup)
    (xrandrCall : list string) (e : exn) :
  prepare w cmdArgs st = (st1, Val (situation, setup)) →
  w_forXrandr w situation setup = Ok xrandrCall →
  w_check_call w xrandrCall = Raise e →
  main w cmdArgs st
  = (mkState (frontend st1)
       (trace st1
        ++ [EvPrintCall "Call that will be made:" xrandrCall;
            EvCheckCall xrandrCall;
            EvFrontendError (fe_name (frontend st1)) (exn_str e)]),
     Exc e)
  ∧ exit_status (main w cmdArgs st).2 = 1%Z.
Proof.
  intros Hprep Hx Hcall.
  assert (main_body w cmdArgs st = (applied st1 xrandrCall, Exc e)) as Hbody.
  { rewrite (main_body_run w cmdArgs st st1 situation setup Hprep).
    unfold apply_setup, applied. run_M.
    rewrite Hx. simpl. rewrite Hcall. simpl. by rewrite <- app_assoc. }
  rewrite (main_reports w _ _ _ _ Hbody). split; [|done].
  unfold applied. simpl. by rewrite <- app_assoc.
Qed.

Lemma xrandr_failure_is_fatal_witness :
  main (H:=Sample.lib) SampleFaults.broken_xrandr
    Sample.args_interactive Sample.start
  = (mkState Sample.cli
       [EvPrintCall "Call that will be made:" ["xrandr"];
        EvCheckCall ["xrandr"];
        EvFrontendError "cli" "xrandr failed"],
     Exc SampleFaults.xrandr_error)
  ∧ exit_status
      (main (H:=Sample.lib) SampleFaults.broken_xrandr
         Sample.args_interactive Sample.start).2
    = 1%Z.
Proof.
  exact (xrandr_failure_is_fatal (H:=Sample.lib) SampleFaults.broken_xrandr
           Sample.args_interactive Sample.start Sample.start
           Sample.laptop_only (mkSetup (Some Sample.r1920) None None)
           ["xrandr"] SampleFaults.xrandr_error eq_refl eq_refl eq_refl).
Defined.

(** X15. When the selection of the frontend raises, the error is shown by
    the frontend in force before, the fallback of line 22 in a fresh run,
    and nothing else happens: no configuration is read, nothing is
    called. *)
Theorem frontend_failure_uses_fallback `{PyLib} (w : World)
    (cmdArgs : CmdArgs) (st : state) (e : exn) :
  w_getFrontend w (arg_frontend cmdArgs) = Raise e →
  main w cmdArgs st
  = (mkState (frontend st)
       (trace st ++ [EvFrontendError (fe_name (frontend st)) (exn_str e)]),
     Exc e).
Proof.
  intros Hfe. apply (main_reports w cmdArgs st st e).
  unfold main_body, prepare. run_M. by rewrite Hfe.
Qed.

Lemma frontend_failure_uses_fallback_witness :
  main (H:=Sample.lib) SampleFaults.no_frontend
    (mkArgs (Some "qt") None false false) Sample.start
  = (mkState Sample.cli [EvFrontendError "cli" "No module named 'PyQt4'"],
     Exc SampleFaults.import_error).
Proof.
  exact (frontend_failure_uses_fallback (H:=Sample.lib)
           SampleFaults.no_frontend (mkArgs (Some "qt") None false false)
           Sample.start SampleFaults.import_error eq_refl).
Defined.

(** X16. The error channel of the frontend is used at most once in a
    run, as the very last thing, and exactly when the run ends with an
    exception: nothing the body does is an error report. *)
Theorem main_reports_once `{PyLib} (w : World) (cmdArgs : CmdArgs)
    (st st' : state) (o : outcome unit) :
  main w cmdArgs st = (st', o) →
  ∃ body,
    Forall (λ ev, ¬ is_error_report ev) body
    ∧ ((∃ e, o = Exc e
          ∧ trace st'
            = (trace st ++ body
               ++ [EvFrontendError (fe_name (frontend st')) (exn_str e)])%list)
       ∨ ((∀ e, o ≠ Exc e) ∧ trace st' = (trace st ++ body)%list)).
Proof.
  unfold main, try_except.
  destruct (main_body w cmdArgs st) as [st1 [[]|e|c]] eqn:Hbody;
    destruct (main_body_emits w cmdArgs _ _ _ Hbody) as (body & Htrace & Hquiet).
  - intros [= <- <-]. exists body. split; [done|]. by right.
  - unfold report. run_M. intros [= <- <-]. exists body. split; [done|].
    left. exists e. split; [done|]. simpl. by rewrite Htrace, app_assoc.
  - intros [= <- <-]. exists body. split; [done|]. by right.
Qed.

Lemma main_reports_once_witness :
  ∃ body,
    Forall (λ ev, ¬ is_error_report ev) body
    ∧ ((∃ e, Exc (A:=unit) SampleFaults.xrandr_error = Exc e
          ∧ [EvPrintCall "Call that will be made:" ["xrandr"];
             EvCheckCall ["xrandr"];
             EvFrontendError "cli" "xrandr failed"]
            = ([] ++ body ++ [EvFrontendError "cli" (exn_str e)])%list)
       ∨ ((∀ e, Exc (A:=unit) SampleFaults.xrandr_error ≠ Exc e)
          ∧ [EvPrintCall "Call that will be made:" ["xrandr"];
             EvCheckCall ["xrandr"];
             EvFrontendError "cli" "xrandr failed"]
            = ([] ++ body)%list)).
Proof.
  exact (main_reports_once (H:=Sample.lib) SampleFaults.broken_xrandr
           Sample.args_interactive Sample.start
           (mkState Sample.cli
              [EvPrintCall "Call that will be made:" ["xrandr"];
               EvCheckCall ["xrandr"];
               EvFrontendError "cli" "xrandr failed"])
           (Exc SampleFaults.xrandr_error) eq_refl).
Defined.

(** X17. Nothing is applied unless the preparation succeeds: when the
    frontend, the configuration, the detection or the construction of
    the setup fails, or the user cancels, the run neither prints nor makes
    a call of [xrandr] or [xbacklight]; all it adds to the trace are
    questions to the frontend and the error report. *)
Theorem nothing_applied_unless_prepared `{PyLib} (w : World)
    (cmdArgs : CmdArgs) (st st1 : state)
    (o : outcome (ScreenSituation * ScreenSetup)) :
  prepare w cmdArgs st = (st1, o) →
  (∀ prepared, o ≠ Val prepared) →
  ∃ st' o' more,
    main w cmdArgs st = (st', o')
    ∧ trace st' = (trace st ++ more)%list
    ∧ Forall (λ ev, is_question ev ∨ is_error_report ev) more.
Proof.
  intros Hprep Hfail.
  destruct (prepare_emits w cmdArgs _ _ _ Hprep) as (more & Htrace & Hmore).
  assert (Forall (λ ev, is_question ev ∨ is_error_report ev) more) as Hmore'.
  { eapply Forall_impl; [exact Hmore|]. by left. }
  unfold main, try_except, main_body. run_M. rewrite Hprep.
  destruct o as [prepared|e|c]; [by destruct (Hfail prepared)| |].
  - unfold report. run_M. eexists _, _, (more ++ [_])%list. split; [done|].
    simpl. split; [by rewrite Htrace, app_assoc|].
    apply Forall_app. split; [done|]. constructor; [|done].
    right. by eexists _, _.
  - by eexists _, _, more.
Qed.

Lemma nothing_applied_unless_prepared_witness :
  ∃ st' o' more,
    main (H:=Sample.lib)
      (Sample.machine Sample.docked (Ok "0.000000") (Ok tt))
      Sample.args_interactive Sample.start
    = (st', o')
    ∧ trace st' = (trace Sample.start ++ more)%list
    ∧ Forall (λ ev, is_question ev ∨ is_error_report ev) more.
Proof.
  apply (nothing_applied_unless_prepared (H:=Sample.lib)
           (Sample.machine Sample.docked (Ok "0.000000") (Ok tt))
           Sample.args_interactive Sample.start
           (mkState Sample.cli [EvFrontendSetup "cli"]) (SysExit 1)).
  - reflexivity.
  - discriminate.
Defined.

(** X18. Without a configuration file the detector is given the built-in
    connector names and no list of external connectors; the run then goes
    on with the situation it finds, or ends with the error it raises. *)
Theorem prepare_unconfigured `{PyLib} (w : World) (cmdArgs : CmdArgs)
    (st : state) (fe : Frontend) (home : string) :
  w_getFrontend w (arg_frontend cmdArgs) = Ok fe →
  w_home w = Some home →
  w_fs w (home ++ "/.dsl.conf") = None →
  prepare w cmdArgs st
  = match w_ScreenSituation w commonInternalConnectorNames None with
    | Raise e => (mkState fe (trace st), Exc e)
    | Ok situation =>
        match construct_setup cmdArgs situation (mkState fe (trace st)) with
        | (st', Val setup) => (st', Val (situation, setup))
        | (st', Exc e) => (st', Exc e)
        | (st', SysExit code) => (st', SysExit code)
        end
    end.
Proof.
  intros Hfe Hhome Hfs. unfold prepare, loadConfigFile, situationByConfig.
  unfold lift, set_frontend, raise, mbind, M_bind, mret, M_ret.
  rewrite Hfe, Hhome, Hfs. simpl. rewrite !lookup_empty. simpl.
  destruct (w_ScreenSituation w commonInternalConnectorNames None); [|done].
  by destruct (construct_setup _ _ _) as [st' [setup|e|c]].
Qed.

Lemma prepare_unconfigured_witness :
  prepare (H:=Sample.lib) SampleFaults.unconfigured Sample.args_internal
    Sample.start
  = (Sample.start,
     Val (Sample.laptop_only, mkSetup (Some Sample.r1920) None None)).
Proof.
  exact (prepare_unconfigured (H:=Sample.lib) SampleFaults.unconfigured
           Sample.args_internal Sample.start Sample.cli "/home/guest"
           eq_refl eq_refl eq_refl).
Defined.

(** X19. A configuration that names no or several internal connectors
    ends the run before anything is detected or applied: the frontend
    selected shows the configuration error, and the run ends with it. *)
Theorem misconfigured_run `{PyLib} (w : World) (cmdArgs : CmdArgs)
    (st : state) (fe : Frontend) (home : string) (config : Config)
    (names : list string) :
  w_getFrontend w (arg_frontend cmdArgs) = Ok fe →
  w_home w = Some home →
  loadConfigFile (w_fs w) (home ++ "/.dsl.conf") = Ok config →
  config !! "internalConnector" = Some names →
  List.length names ≠ 1 →
  main w cmdArgs st
  = (mkState fe
       (trace st
        ++ [EvFrontendError (fe_name fe)
              "You must specify exactly one internal connector."]),
     Exc config_error).
Proof.
  intros Hfe Hhome Hload Hnames Hlen.
  assert (main_body w cmdArgs st = (mkState fe (trace st), Exc config_error))
    as Hbody.
  { unfold main_body, prepare, situationByConfig.
    unfold lift, set_frontend, raise, mbind, M_bind, mret, M_ret.
    rewrite Hfe, Hhome, Hload, Hnames. simpl.
    by destruct (decide (List.length names ≠ 1)). }
  by rewrite (main_reports w _ _ _ _ Hbody).
Qed.

Lemma misconfigured_run_witness :
  main (H:=Sample.lib)
    (mkWorld (Some "/home/user")
       (λ _, Some ["internalConnector = LVDS1 eDP1" ++ Sample.nl])
       (λ _, Ok Sample.cli) (λ _ _, Ok Sample.docked) (λ _ _, Ok ["xrandr"])
       (λ _, Ok tt) (λ _, Ok "100.000000"))
    Sample.args_interactive Sample.start
  = (mkState Sample.cli
       [EvFrontendError "cli" "You must specify exactly one internal connector."],
     Exc config_error).
Proof.
  apply (misconfigured_run (H:=Sample.lib) _ Sample.args_interactive
           Sample.start Sample.cli "/home/user"
           {["internalConnector" := ["LVDS1"; "eDP1"]]} ["LVDS1"; "eDP1"]).
  - reflexivity.
  - reflexivity.
  - vm_compute. reflexivity.
  - reflexivity.
  - simpl. lia.
Defined.
